(** * AstroDate: the "Born on Discovery" dashboard page

    A shallow embedding of [src/Pages/Dashboard/AstroDate.jsx] and the
    properties of its request lifecycle.

    The component is a React function component with five pieces of local
    state, one asynchronous function ([fetchNasaHistory]), one click handler
    ([handleSearch]) and a JSX body.  The embedding follows that layout:

    - [Host] collects what the JavaScript host supplies and the repository
      does not define (number printing, the text of a [TypeError], the
      locale date formatter);
    - [jsval] is a JavaScript value as [JSON.parse] produces it;
    - [prog] is a small resumption monad: state-setter calls are logged
      actions, [throw]/[try]/[catch] are modelled, and each [await] is a
      suspension point that hands a continuation to the event loop;
    - [System] is the mounted component: its state plus the suspended
      calls, stepped by user and network events. *)

From Stdlib Require Import String Ascii List Bool Arith NArith Lia.
From Stdlib Require Import DecimalString.
Import ListNotations.
Open Scope list_scope.
Open Scope string_scope.

Set Implicit Arguments.
Set Warnings "-register-all".

(** ** The host environment *)

(** What the code takes from the JavaScript engine and the browser.
    JSON numbers are IEEE doubles printed by [Number::toString]; neither is
    defined by the repository, so the number type and the two operations the
    component applies to it are parameters.  The same holds for the message
    of the [TypeError] raised when a property of [null] is read, and for
    [Date.prototype.toLocaleDateString]. *)
Class Host : Type := {
  number : Type;
  (** [true] on [+0] and [-0], the falsy numbers [JSON.parse] can return *)
  number_is_zero : number -> bool;
  (** [Number::toString] *)
  number_to_string : number -> string;
  (** message of the [TypeError] for reading property [key] of [null]
      ([of_null = true]) or of [undefined] *)
  nullish_read_message : bool -> string -> string;
  (** [new Date(s).toLocaleDateString('en-US',
        {weekday:'long', year:'numeric', month:'long', day:'numeric'})] *)
  toLocaleDateString : string -> string
}.

(** ** JavaScript values *)

Section Values.
Context {H : Host}.

(** A value as [response.json()] yields it, plus [undefined], which
    property reads produce.  An object is the list of its own properties;
    the first binding of a key is the one a read sees. *)
Inductive jsval : Type :=
| JUndefined
| JNull
| JBool (b : bool)
| JNum (n : number)
| JStr (s : string)
| JArr (elems : list jsval)
| JObj (fields : list (string * jsval)).

(** Own-property lookup in an object literal. *)
Fixpoint assoc (key : string) (fields : list (string * jsval)) : option jsval :=
  match fields with
  | [] => None
  | (k, v) :: rest => if String.eqb key k then Some v else assoc key rest
  end.

(** The object without its [key] properties. *)
Fixpoint remove_key (key : string) (fields : list (string * jsval))
  : list (string * jsval) :=
  match fields with
  | [] => []
  | (k, v) :: rest =>
      if String.eqb key k then remove_key key rest
      else (k, v) :: remove_key key rest
  end.

(** ToBoolean. *)
Definition truthy (v : jsval) : bool :=
  match v with
  | JUndefined | JNull => false
  | JBool b => b
  | JNum n => negb (number_is_zero n)
  | JStr EmptyString => false
  | JStr _ => true
  | JArr _ | JObj _ => true
  end.

(** ToBoolean on a string. *)
Definition truthy_string (s : string) : bool :=
  match s with
  | EmptyString => false
  | _ => true
  end.

(** [a || b] *)
Definition js_or (a b : jsval) : jsval := if truthy a then a else b.

Fixpoint join (sep : string) (parts : list string) : string :=
  match parts with
  | [] => EmptyString
  | [p] => p
  | p :: rest => p ++ sep ++ join sep rest
  end.

(** ToString, as a template literal applies it.  An array prints its
    elements joined by commas, [null] and [undefined] elements as the empty
    string; a plain object prints as [[object Object]]. *)
Fixpoint to_string (v : jsval) : string :=
  match v with
  | JUndefined => "undefined"
  | JNull => "null"
  | JBool true => "true"
  | JBool false => "false"
  | JNum n => number_to_string n
  | JStr s => s
  | JArr elems =>
      join ","
        ((fix each (l : list jsval) : list string :=
            match l with
            | [] => []
            | JUndefined :: rest => EmptyString :: each rest
            | JNull :: rest => EmptyString :: each rest
            | x :: rest => to_string x :: each rest
            end) elems)
  | JObj _ => "[object Object]"
  end.

(** A JavaScript exception object: the code reads only [message]. *)
Record js_error : Type := Error { err_name : string; message : string }.

(** [v.key] for the property names the component reads ([apod], [title],
    [explanation], [url]): none of them is an array index, [length] or a
    property of a built-in prototype, so only an object's own properties
    can answer.  Reading a property of [null] or [undefined] throws. *)
Definition get_prop (v : jsval) (key : string) : js_error + jsval :=
  match v with
  | JUndefined => inl (Error "TypeError" (nullish_read_message false key))
  | JNull => inl (Error "TypeError" (nullish_read_message true key))
  | JObj fields =>
      match assoc key fields with
      | Some x => inr x
      | None => inr JUndefined
      end
  | JBool _ | JNum _ | JStr _ | JArr _ => inr JUndefined
  end.

(** Decimal printing of an integer, [Number::toString] on an HTTP status. *)
Definition decimal (n : N) : string := NilZero.string_of_uint (N.to_uint n).

(** ** The network *)

(** How a promise settles: rejected with an exception or fulfilled. *)
Definition settled (A : Type) : Type := (js_error + A)%type.

(** A [Response]: its status line and what [response.json()] will settle
    to (the parsed body, or the exception of a failed read or parse). *)
Record Response : Type := { status : N; body : settled jsval }.

(** [response.ok]: the status is in the range 200-299. *)
Definition ok (r : Response) : bool :=
  (200 <=? status r)%N && (status r <=? 299)%N.

(** ** Component state *)

(** An entry of the citation list. *)
Record Source : Type := { uri : jsval; title : jsval }.

(** The five [useState] cells. *)
Record State : Type := {
  selectedDate : string;
  resultText : option string;
  sources : list Source;
  isLoading : bool;
  error : option string
}.

(** The calls with an effect outside the function: the state setters,
    [console.error], and [fetch], which sends the request. *)
Inductive action : Type :=
| setSelectedDate (v : string)
| setResultText (t : option string)
| setSources (l : list Source)
| setIsLoading (b : bool)
| setError (e : option string)
| console_error (label : string) (err : js_error)
| send_request (url : string).

Definition apply_action (a : action) (st : State) : State :=
  match a with
  | setSelectedDate v =>
      {| selectedDate := v; resultText := resultText st;
         sources := sources st; isLoading := isLoading st; error := error st |}
  | setResultText t =>
      {| selectedDate := selectedDate st; resultText := t;
         sources := sources st; isLoading := isLoading st; error := error st |}
  | setSources l =>
      {| selectedDate := selectedDate st; resultText := resultText st;
         sources := l; isLoading := isLoading st; error := error st |}
  | setIsLoading b =>
      {| selectedDate := selectedDate st; resultText := resultText st;
         sources := sources st; isLoading := b; error := error st |}
  | setError e =>
      {| selectedDate := selectedDate st; resultText := resultText st;
         sources := sources st; isLoading := isLoading st; error := e |}
  | console_error _ _ => st
  | send_request _ => st
  end.

(** Setter calls take effect in call order. *)
Definition apply_all (l : list action) (st : State) : State :=
  fold_left (fun s a => apply_action a s) l st.

(** ** Asynchronous code *)

(** A computation is a tree: it returns, throws, performs an action and
    goes on, or awaits a promise and goes on with its settlement. *)
Inductive prog (A : Type) : Type :=
| Ret (a : A)
| Throw (e : js_error)
| Do (a : action) (k : prog A)
| AwaitFetch (url : string) (k : settled Response -> prog A)
| AwaitJson (r : Response) (k : settled jsval -> prog A).

Arguments Ret {A} a.
Arguments Throw {A} e.
Arguments Do {A} a k.
Arguments AwaitFetch {A} url k.
Arguments AwaitJson {A} r k.

Fixpoint bind {A B : Type} (p : prog A) (f : A -> prog B) : prog B :=
  match p with
  | Ret a => f a
  | Throw e => Throw e
  | Do a k => Do a (bind k f)
  | AwaitFetch url k => AwaitFetch url (fun s => bind (k s) f)
  | AwaitJson r k => AwaitJson r (fun s => bind (k s) f)
  end.

(** [try { p } catch (err) { handler err }] *)
Fixpoint try_catch {A : Type} (p : prog A) (handler : js_error -> prog A)
  : prog A :=
  match p with
  | Ret a => Ret a
  | Throw e => handler e
  | Do a k => Do a (try_catch k handler)
  | AwaitFetch url k => AwaitFetch url (fun s => try_catch (k s) handler)
  | AwaitJson r k => AwaitJson r (fun s => try_catch (k s) handler)
  end.

Definition call (a : action) : prog unit := Do a (Ret tt).

(** Resuming after [await]: a rejection is thrown at the await. *)
Definition resume {A : Type} (s : settled A) : prog A :=
  match s with
  | inl e => Throw e
  | inr a => Ret a
  end.

(** [await fetch(url)]: the call sends the request, the [await] waits for
    the promise it returned. *)
Definition fetch (url : string) : prog Response :=
  Do (send_request url) (AwaitFetch url resume).

(** [await response.json()] *)
Definition json (r : Response) : prog jsval := AwaitJson r resume.

(** A property read inside a computation. *)
Definition read (v : jsval) (key : string) : prog jsval :=
  resume (get_prop v key).

End Values.

Arguments Ret {H A} a.
Arguments Throw {H A} e.
Arguments Do {H A} a k.
Arguments AwaitFetch {H A} url k.
Arguments AwaitJson {H A} r k.

Declare Scope prog_scope.
Delimit Scope prog_scope with prog.
Notation "x <- c1 ;; c2" := (bind c1 (fun x => c2))
  (at level 61, c1 at next level, right associativity) : prog_scope.
Notation "c1 ;; c2" := (bind c1 (fun _ => c2))
  (at level 61, right associativity) : prog_scope.

Section Component.
Context {H : Host}.
Open Scope prog_scope.

(** The request URL, [`/api/discover?dob=${date}`]. *)
Definition discover_url (date : string) : string :=
  "/api/discover?dob=" ++ date.

(** [fetchNasaHistory], lines 20-55. *)
Definition fetchNasaHistory (date : string) : prog unit :=
  call (setIsLoading true) ;;
  call (setError None) ;;
  call (setResultText None) ;;
  call (setSources []) ;;
  try_catch
    (response <- fetch (discover_url date) ;;
     (if negb (ok response)
      then Throw (Error "Error"
                    ("Failed with status: " ++ decimal (status response)))
      else Ret tt) ;;
     data <- json response ;;
     apod <- read data "apod" ;;
     if truthy apod then
       apod_title <- (apod <- read data "apod" ;; read apod "title") ;;
       apod_explanation <-
         (apod <- read data "apod" ;; read apod "explanation") ;;
       let text :=
         to_string apod_title ++ " — " ++ to_string apod_explanation in
       call (setResultText (Some text)) ;;
       apod_url <- (apod <- read data "apod" ;; read apod "url") ;;
       apod_title <- (apod <- read data "apod" ;; read apod "title") ;;
       call (setSources
               [ {| uri := apod_url;
                    title := js_or apod_title (JStr "NASA APOD") |} ])
     else
       call (setResultText (Some "No APOD data available for this date.")))
    (fun err =>
       call (console_error "Backend API Error:" err) ;;
       call (setError (Some ("Failed to fetch NASA data: " ++ message err)))) ;;
  call (setIsLoading false).

(** [handleSearch], lines 58-64; [selectedDate] is the value the handler
    closed over at the last render. *)
Definition handleSearch (selectedDate : string) : prog unit :=
  if truthy_string selectedDate then
    fetchNasaHistory selectedDate
  else
    call (setError (Some "Please select a valid date.")).

(** ** The event loop *)

(** A call parked at an [await], with the rest of its body. *)
Inductive task : Type :=
| OnFetch (url : string) (k : settled Response -> prog unit)
| OnJson (r : Response) (k : settled jsval -> prog unit).

(** How a stretch of synchronous execution ends. *)
Inductive outcome : Type :=
| Returned
| Failed (e : js_error)
| Suspended (t : task).

(** Runs [p] up to its next [await]: the actions performed on the way and
    how the stretch ended. *)
Fixpoint segment (p : prog unit) : list action * outcome :=
  match p with
  | Ret _ => ([], Returned)
  | Throw e => ([], Failed e)
  | Do a k => let (acts, o) := segment k in (a :: acts, o)
  | AwaitFetch url k => ([], Suspended (OnFetch url k))
  | AwaitJson r k => ([], Suspended (OnJson r k))
  end.

(** All the actions of [p], from its first statement to its end, when the
    request for [url] settles as [net url] and every body read settles as
    the response carries it. *)
Fixpoint run {A : Type} (net : string -> settled Response) (p : prog A)
  : list action :=
  match p with
  | Ret _ => []
  | Throw _ => []
  | Do a k => a :: run net k
  | AwaitFetch url k => run net (k (net url))
  | AwaitJson r k => run net (k (body r))
  end.

(** How [p] ends on that run: with a value or with an exception. *)
Fixpoint final {A : Type} (net : string -> settled Response) (p : prog A)
  : settled A :=
  match p with
  | Ret a => inr a
  | Throw e => inl e
  | Do _ k => final net k
  | AwaitFetch url k => final net (k (net url))
  | AwaitJson r k => final net (k (body r))
  end.

(** Every action [p] can perform satisfies [P], however its awaits
    settle. *)
Fixpoint always {A : Type} (P : action -> Prop) (p : prog A) : Prop :=
  match p with
  | Ret _ => True
  | Throw _ => True
  | Do a k => P a /\ always P k
  | AwaitFetch _ k => forall s, always P (k s)
  | AwaitJson _ k => forall s, always P (k s)
  end.

Definition is_setIsLoading (b : bool) (a : action) : bool :=
  match a with
  | setIsLoading b' => Bool.eqb b b'
  | _ => false
  end.

Definition is_send_request (a : action) : bool :=
  match a with
  | send_request _ => true
  | _ => false
  end.

(** The actions that report the outcome of a request. *)
Definition reports_outcome (a : action) : Prop :=
  match a with
  | setResultText _ | setSources _ | setError _ | console_error _ _ => True
  | setSelectedDate _ | setIsLoading _ | send_request _ => False
  end.

(** The mounted component: its state and the calls awaiting the network. *)
Record System : Type := { ui : State; pending : list task }.

(** Mount: [selectedDate] starts as today's ISO date, the other cells as
    written at lines 12-17. *)
Definition initial (today : string) : System :=
  {| ui := {| selectedDate := today; resultText := None; sources := [];
              isLoading := false; error := None |};
     pending := [] |}.

(** The [disabled] attribute of the button, line 104. *)
Definition submit_disabled (st : State) : bool :=
  isLoading st || negb (truthy_string (selectedDate st)).

Inductive event : Type :=
| Change (v : string)                        (** the date input changes *)
| Click                                      (** the button is clicked *)
| FetchSettles (i : nat) (s : settled Response)
                                (** the fetch of pending call [i] settles *)
| BodySettles (i : nat).    (** the body read of pending call [i] settles *)

(** A handler starts a computation: its first stretch runs at once.  The
    setter calls of a stretch are batched: the next render, and so the next
    event, sees the state after all of them. *)
Definition start (p : prog unit) (c : System) : System :=
  let (acts, o) := segment p in
  {| ui := apply_all acts (ui c);
     pending := match o with
                | Suspended t => (pending c ++ [t])%list
                | _ => pending c
                end |}.

(** Pending call [i] goes on as [p]. *)
Definition continue (i : nat) (p : prog unit) (c : System) : System :=
  let (acts, o) := segment p in
  {| ui := apply_all acts (ui c);
     pending := match o with
                | Suspended t =>
                    (firstn i (pending c) ++ t :: skipn (S i) (pending c))%list
                | _ => (firstn i (pending c) ++ skipn (S i) (pending c))%list
                end |}.

(** One turn of the event loop; [None] when the event cannot happen: a
    disabled button does not deliver clicks, and only a pending call can
    be resumed. *)
Definition step (e : event) (c : System) : option System :=
  match e with
  | Change v => Some (start (call (setSelectedDate v)) c)
  | Click =>
      if submit_disabled (ui c) then None
      else Some (start (handleSearch (selectedDate (ui c))) c)
  | FetchSettles i s =>
      match nth_error (pending c) i with
      | Some (OnFetch _ k) => Some (continue i (k s) c)
      | _ => None
      end
  | BodySettles i =>
      match nth_error (pending c) i with
      | Some (OnJson r k) => Some (continue i (k (body r)) c)
      | _ => None
      end
  end.

Fixpoint steps (es : list event) (c : System) : option System :=
  match es with
  | [] => Some c
  | e :: rest =>
      match step e c with
      | Some c' => steps rest c'
      | None => None
      end
  end.

(** The states the component can be in after mounting. *)
Definition reachable (c : System) : Prop :=
  exists today es, steps es (initial today) = Some c.

(** The rest of [fetchNasaHistory date] after [await fetch(...)]. *)
Definition fetch_continuation (date : string) : settled Response -> prog unit :=
  match snd (segment (fetchNasaHistory date)) with
  | Suspended (OnFetch _ k) => k
  | _ => fun _ => Ret tt
  end.

(** The rest of [fetchNasaHistory date] after [await response.json()]. *)
Definition body_continuation (date : string) (r : Response)
  : settled jsval -> prog unit :=
  match snd (segment (fetch_continuation date (inr r))) with
  | Suspended (OnJson _ k) => k
  | _ => fun _ => Ret tt
  end.

(** ** Vocabulary of the properties *)

(** The failure detail of a request outcome, when it is one of the
    failures of the contract: the fetch rejects, the status is not 2xx, or
    reading and parsing the body throws. *)
Definition failure_detail (s : settled Response) : option string :=
  match s with
  | inl err => Some (message err)
  | inr r =>
      if negb (ok r)
      then Some ("Failed with status: " ++ decimal (status r))
      else match body r with
           | inl err => Some (message err)
           | inr _ => None
           end
  end.

(** [part] occurs in [whole]. *)
Definition contains (part whole : string) : Prop :=
  exists before after, whole = before ++ part ++ after.

(** At most one of the result and the error is set. *)
Definition result_xor_error (st : State) : Prop :=
  resultText st = None \/ error st = None.

(** The shape of the system between events: idle with nothing pending, or
    loading with exactly one call parked at one of the two awaits of
    [fetchNasaHistory]. *)
Definition lifecycle_inv (c : System) : Prop :=
  match pending c with
  | [] => isLoading (ui c) = false /\ result_xor_error (ui c)
  | [t] =>
      isLoading (ui c) = true /\ resultText (ui c) = None /\
      error (ui c) = None /\ sources (ui c) = [] /\
      ((exists date, t = OnFetch (discover_url date) (fetch_continuation date))
       \/ (exists date r, ok r = true /\ t = OnJson r (body_continuation date r)))
  | _ => False
  end.

(** ** Rendering *)

(** The two functions the JSX passes as event handlers. *)
Inductive handler : Type :=
| handleSearch_ref                     (** [onClick={handleSearch}] *)
| setSelectedDate_of_target.  (** [(e) => setSelectedDate(e.target.value)] *)

Inductive attr : Type :=
| AStr (s : string)
| ABool (b : bool)
| AIndex (n : nat)
| AVal (v : jsval)
| AHandler (h : handler).

(** A React element tree as the component function returns it. *)
Inductive vnode : Type :=
| Text (s : string)
| Value (v : jsval)       (** a [{expr}] child holding a JavaScript value *)
| Null
| VBool (b : bool)
| Fragment (children : list vnode)
| Nodes (items : list vnode)      (** an array child, from [map] *)
| Element (tag : string) (attrs : list (string * attr))
          (children : list vnode).

(** [s && node] for a state cell that is [null] or a string. *)
Definition and_string (s : option string) (node : vnode) : vnode :=
  match s with
  | None => Null
  | Some EmptyString => Text EmptyString
  | Some _ => node
  end.

(** [b && node] *)
Definition and_bool (b : bool) (node : vnode) : vnode :=
  if b then node else VBool false.

(** [l.map((x, index) => f x index)] *)
Fixpoint map_indexed {A B : Type} (f : A -> nat -> B) (index : nat)
  (l : list A) : list B :=
  match l with
  | [] => []
  | x :: rest => f x index :: map_indexed f (S index) rest
  end.

(** The callback of [useMemo] at lines 67-74. *)
Definition formatResultDate (selectedDate : string) : string :=
  if truthy_string selectedDate then toLocaleDateString selectedDate
  else "Selected Date".

(** The memo cell of [useMemo(..., [selectedDate])]: the dependency it was
    last computed for and the value, or nothing before the first render. *)
Definition memo : Type := option (string * string).

(** [useMemo]: the callback runs on the first render and when the
    dependency differs from the stored one. *)
Definition useMemo_formattedResultDate (selectedDate : string) (m : memo)
  : string * memo :=
  match m with
  | Some (dep, value) =>
      if String.eqb dep selectedDate then (value, m)
      else let value' := formatResultDate selectedDate in
           (value', Some (selectedDate, value'))
  | None =>
      let value' := formatResultDate selectedDate in
      (value', Some (selectedDate, value'))
  end.

Definition source_item (source : Source) (index : nat) : vnode :=
  Element "li" [("key", AIndex index); ("className", AStr "truncate")]
    [Element "a"
       [("href", AVal (uri source));
        ("target", AStr "_blank");
        ("rel", AStr "noopener noreferrer");
        ("className",
         AStr "text-cyan-400 hover:text-cyan-300 transition duration-150");
        ("title", AVal (js_or (title source) (uri source)))]
       [Value (js_or (title source) (uri source))]].

(** The JSX of lines 77-179 over the state cells and the memoised date. *)
Definition view (st : State) (formattedResultDate : string) : vnode :=
  Element "div"
    [("className", AStr "min-h-screen flex flex-col pl-60 justify-center font-sans text-white")]
    [Element "h1"
       [("className", AStr "text-4xl font-extrabold text-white mb-4 flex items-center space-x-3")]
       [Element "Rocket" [("className", AStr "w-8 h-8 text-cyan-400")] [];
        Element "span" [] [Text "Born on Discovery"]];
     Element "p" [("className", AStr "text-gray-400 mb-8 max-w-2xl")]
       [Text "Enter any date to discover what pivotal NASA, space, or astronomical event occurred. Find your cosmic birthday twin!"];
     Element "div"
       [("className", AStr "bg-gray-800 p-6 rounded-xl shadow-xl shadow-black/30 border border-gray-700 flex flex-col md:flex-row items-center gap-4 mb-10 max-w-4xl")]
       [Element "div" [("className", AStr "flex-grow w-full")]
          [Element "label"
             [("htmlFor", AStr "dob-date");
              ("className", AStr "block text-sm font-medium text-gray-300 mb-2")]
             [Text "Select a Date (Your Birthday or any date)"];
           Element "input"
             [("type", AStr "date");
              ("id", AStr "dob-date");
              ("value", AStr (selectedDate st));
              ("onChange", AHandler setSelectedDate_of_target);
              ("className", AStr "w-full p-3 rounded-lg bg-gray-700 text-white border border-gray-600 focus:ring-cyan-500 focus:border-cyan-500 transition duration-300")]
             []];
        Element "button"
          [("onClick", AHandler handleSearch_ref);
           ("disabled", ABool (submit_disabled st));
           ("className", AStr "w-full md:w-auto mt-7 flex items-center justify-center space-x-2 bg-cyan-500 text-slate-900 py-3 px-6 rounded-xl hover:bg-cyan-600 transition duration-300 font-semibold shadow-lg shadow-cyan-500/30 disabled:opacity-50 disabled:cursor-not-allowed")]
          [if isLoading st then
             Fragment
               [Element "Loader2" [("className", AStr "w-5 h-5 animate-spin")] [];
                Element "span" [] [Text "Searching Cosmos..."]]
           else
             Fragment
               [Element "Search" [("className", AStr "w-5 h-5")] [];
                Element "span" [] [Text "Search Discovery"]]]];
     Element "div" [("className", AStr "max-w-4xl")]
       [and_string (error st)
          (Element "div"
             [("className", AStr "bg-red-900/50 text-red-300 p-4 rounded-xl border border-red-700")]
             [Element "p" [("className", AStr "font-semibold")] [Text "Error:"];
              Element "p" []
                [match error st with Some e => Text e | None => Null end]]);
        and_bool (isLoading st)
          (Element "div" [("className", AStr "text-center p-10")]
             [Element "Loader2"
                [("className", AStr "w-12 h-12 text-cyan-400 mx-auto animate-spin mb-4")] [];
              Element "p" [("className", AStr "text-gray-400")]
                [Text "Consulting the astronomical archives..."]]);
        and_string (resultText st)
          (Element "div"
             [("className", AStr "bg-gray-800 p-8 rounded-2xl shadow-2xl shadow-black/50 border border-gray-700")]
             [Element "h2"
                [("className", AStr "text-3xl font-extrabold text-cyan-400 mb-4 flex items-center space-x-2 border-b border-gray-700 pb-2")]
                [Element "CalendarCheck" [("className", AStr "w-6 h-6")] [];
                 Element "span" []
                   [Text "Discovery for "; Text formattedResultDate]];
              Element "div" [("className", AStr "max-h-64 overflow-y-auto pr-3")]
                [Element "p"
                   [("className", AStr "text-lg text-gray-200 leading-relaxed")]
                   [match resultText st with
                    | Some t => Text t
                    | None => Null
                    end]];
              and_bool (Nat.ltb 0 (List.length (sources st)))
                (Element "div"
                   [("className", AStr "mt-6 pt-4 border-t border-gray-700")]
                   [Element "h3"
                      [("className", AStr "text-sm font-semibold text-gray-400 uppercase mb-3")]
                      [Element "Globe" [("className", AStr "w-4 h-4 inline mr-1")] [];
                       Text "Sources"];
                    Element "ul"
                      [("className", AStr "list-disc list-inside space-y-2 text-sm text-gray-500")]
                      [Nodes (map_indexed source_item 0 (sources st))]])])]].

(** One call of the component function [AstroDate]: the hooks give it the
    state cells and the memo cell; it returns the element tree and leaves
    the memo cell for the next render. *)
Definition AstroDate (st : State) (m : memo) : vnode * memo :=
  let (formattedResultDate, m') :=
    useMemo_formattedResultDate (selectedDate st) m in
  (view st formattedResultDate, m').

(** The memo cells that renders can leave behind: none before the first
    render, then whatever a render of some state leaves. *)
Inductive memo_reachable : memo -> Prop :=
| memo_mount : memo_reachable None
| memo_render (st : State) (m : memo) :
    memo_reachable m -> memo_reachable (snd (AstroDate st m)).

(** The attributes of the first element named [tag], in document order. *)
Fixpoint find_element (tag : string) (v : vnode)
  : option (list (string * attr)) :=
  let first :=
    fix first (l : list vnode) : option (list (string * attr)) :=
      match l with
      | [] => None
      | c :: rest =>
          match find_element tag c with
          | Some a => Some a
          | None => first rest
          end
      end in
  match v with
  | Element t attrs children =>
      if String.eqb t tag then Some attrs else first children
  | Fragment children => first children
  | Nodes items => first items
  | Text _ | Value _ | Null | VBool _ => None
  end.

Fixpoint find_attr (name : string) (attrs : list (string * attr))
  : option attr :=
  match attrs with
  | [] => None
  | (n, a) :: rest => if String.eqb n name then Some a else find_attr name rest
  end.

(** The [disabled] attribute of the button in a rendered tree. *)
Definition button_disabled (v : vnode) : option attr :=
  match find_element "button" v with
  | Some attrs => find_attr "disabled" attrs
  | None => None
  end.

(** A memo cell holds the formatted date of the dependency stored with
    it. *)
Definition memo_consistent (m : memo) : Prop :=
  match m with
  | Some (dep, value) => value = formatResultDate dep
  | None => True
  end.

(** ** Mounting *)

(** [s.split(sep)] for a one-character separator: the pieces between the
    occurrences of [sep]; a string without [sep] is its own single piece. *)
Fixpoint split_on (sep : ascii) (s : string) : list string :=
  match s with
  | EmptyString => [EmptyString]
  | String c rest =>
      if Ascii.eqb c sep then EmptyString :: split_on sep rest
      else match split_on sep rest with
           | piece :: pieces => String c piece :: pieces
           | [] => [String c EmptyString]
           end
  end.

(** The initialiser of [selectedDate], lines 6-9, applied to the string
    [today.toISOString()] returns: [iso.split('T')[0]]. *)
Definition initial_selectedDate (iso : string) : string :=
  match split_on "T" iso with
  | piece :: _ => piece
  | [] => EmptyString
  end.

(** The component as mounted at the instant whose ISO timestamp is
    [iso]. *)
Definition mount (iso : string) : System :=
  initial (initial_selectedDate iso).

(** ** More vocabulary of the properties *)

(** The synchronous stretch of [fetchNasaHistory date]: lines 21-24 and
    the call of [fetch]. *)
Definition resets (date : string) : list action :=
  [setIsLoading true; setError None; setResultText None; setSources [];
   send_request (discover_url date)].

Definition is_console_error (a : action) : bool :=
  match a with
  | console_error _ _ => true
  | _ => false
  end.

(** The state with another date in the input. *)
Definition with_date (v : string) (st : State) : State :=
  apply_action (setSelectedDate v) st.

(** An error cell that is null or a message of the [catch] block. *)
Definition fetch_error (e : option string) : Prop :=
  match e with
  | None => True
  | Some msg => exists detail, msg = "Failed to fetch NASA data: " ++ detail
  end.

(** A citation list as a search leaves it: empty, or one entry with a
    truthy title beside a result and no error. *)
Definition cited (st : State) : Prop :=
  match sources st with
  | [] => True
  | [s] => truthy (title s) = true /\ resultText st <> None /\ error st = None
  | _ => False
  end.

(** What the cells can hold between events. *)
Definition display_inv (st : State) : Prop :=
  fetch_error (error st) /\
  resultText st <> Some EmptyString /\
  cited st.

Definition children (v : vnode) : list vnode :=
  match v with
  | Element _ _ cs => cs
  | Fragment cs => cs
  | Nodes cs => cs
  | Text _ | Value _ | Null | VBool _ => []
  end.

(** The children of the results area, the last [div] of the page: the
    error panel, the loading panel and the result panel, or what their
    guards leave in their place. *)
Definition results_area (page : vnode) : list vnode :=
  children (last (children page) Null).

Definition is_element (v : vnode) : bool :=
  match v with
  | Element _ _ _ => true
  | _ => false
  end.

(** The rendered item of a citation whose link shows [label]. *)
Definition citation_item (href label : jsval) (index : nat) : vnode :=
  Element "li" [("key", AIndex index); ("className", AStr "truncate")]
    [Element "a"
       [("href", AVal href);
        ("target", AStr "_blank");
        ("rel", AStr "noopener noreferrer");
        ("className",
         AStr "text-cyan-400 hover:text-cyan-300 transition duration-150");
        ("title", AVal label)]
       [Value label]].

End Component.

(** A host to evaluate examples on: integers for numbers, the messages V8
    prints, and a formatter that leaves the ISO date as it is. *)
Definition example_host : Host :=
  {| number := N;
     number_is_zero := N.eqb 0;
     number_to_string := decimal;
     nullish_read_message := fun of_null key =>
       "Cannot read properties of "
       ++ (if of_null then "null" else "undefined")
       ++ " (reading '" ++ key ++ "')";
     toLocaleDateString := fun s => s |}.

(** ** Example data *)

Definition apod_fields : list (string * @jsval example_host) :=
  [("title", JStr "Pillars of Creation");
   ("explanation", JStr "Columns of gas and dust.");
   ("url", JStr "https://apod.nasa.gov/apod/image/pillars.jpg")].

Definition apod_body : @jsval example_host :=
  JObj [("apod", JObj apod_fields)].

Definition apod_response : @Response example_host :=
  {| status := 200; body := inr apod_body |}.

Definition empty_response : @Response example_host :=
  {| status := 200; body := inr (JObj [("date", JStr "2024-01-15")]) |}.

Definition null_apod_response : @Response example_host :=
  {| status := 200;
     body := inr (JObj [("date", JStr "2024-01-15"); ("apod", JNull)]) |}.

Definition server_error_response : @Response example_host :=
  {| status := 500;
     body := inr (JObj [("error", JStr "upstream failed")]) |}.

(** A network that answers every request with [r]. *)
Definition answering {H : Host} (r : Response) : string -> settled Response :=
  fun _ => inr r.

Definition idle_state : @State example_host :=
  {| selectedDate := "2024-01-15"; resultText := None; sources := [];
     isLoading := false; error := None |}.

(** A finished search whose date was then cleared in the input. *)
Definition cleared_date_system : @System example_host :=
  {| ui := {| selectedDate := EmptyString;
              resultText := Some "Pillars of Creation — Columns of gas and dust.";
              sources := [ {| uri := JStr "https://apod.nasa.gov/apod/image/pillars.jpg";
                              title := JStr "Pillars of Creation" |} ];
              isLoading := false; error := None |};
     pending := [] |}.

(** The component right after a click on the mount date. *)
Definition loading_system : @System example_host :=
  start (handleSearch "2024-01-15") (initial "2024-01-15").

Definition null_body_response : @Response example_host :=
  {| status := 200; body := inr JNull |}.

Definition array_body_response : @Response example_host :=
  {| status := 200; body := inr (JArr [JStr "2024-01-15"]) |}.



(** An [apod] that is the boolean [true]. *)
Definition bare_apod_response : @Response example_host :=
  {| status := 200; body := inr (JObj [("apod", JBool true)]) |}.

(** A 500 answer that carries a well-formed body all the same. *)
Definition server_error_with_apod : @Response example_host :=
  {| status := 500; body := inr apod_body |}.

(** The component after a search on the mount date that found
    [apod_response]. *)
Definition finished_system : @System example_host :=
  match steps [Click; FetchSettles 0 (inr apod_response); BodySettles 0]
          (initial "2024-01-15") with
  | Some c => c
  | None => initial "2024-01-15"
  end.

(** [loading_system] after its fetch has settled with a 500 answer. *)
Definition failed_system : @System example_host :=
  continue 0 (fetch_continuation "2024-01-15" (inr server_error_response))
    loading_system.

(** * Properties *)

Section Proofs.
Context {H : Host}.
Open Scope prog_scope.

(** ** Laws of the resumption monad *)

Lemma run_bind {A B : Type} net (p : prog A) (f : A -> prog B) :
  run net (bind p f) =
  (run net p ++ match final net p with
                | inr a => run net (f a)
                | inl _ => []
                end)%list.
Proof.
  induction p as [a|e|a k IH|url k IH|r k IH]; cbn; auto.
  now rewrite IH.
Qed.

Lemma final_bind {A B : Type} net (p : prog A) (f : A -> prog B) :
  final net (bind p f) =
  match final net p with
  | inr a => final net (f a)
  | inl e => inl e
  end.
Proof.
  induction p as [a|e|a k IH|url k IH|r k IH]; cbn; auto.
Qed.

Lemma run_try_catch {A : Type} net (p : prog A) handler :
  run net (try_catch p handler) =
  (run net p ++ match final net p with
                | inl e => run net (handler e)
                | inr _ => []
                end)%list.
Proof.
  induction p as [a|e|a k IH|url k IH|r k IH]; cbn; auto.
  now rewrite IH.
Qed.

Lemma final_try_catch {A : Type} net (p : prog A) handler :
  final net (try_catch p handler) =
  match final net p with
  | inl e => final net (handler e)
  | inr a => inr a
  end.
Proof.
  induction p as [a|e|a k IH|url k IH|r k IH]; cbn; auto.
Qed.

(** A run is its first synchronous stretch followed by the run of the
    parked continuation. *)
Lemma run_segment net (p : prog unit) :
  run net p =
  (fst (segment p) ++ match snd (segment p) with
                      | Suspended (OnFetch url k) => run net (k (net url))
                      | Suspended (OnJson r k) => run net (k (body r))
                      | _ => []
                      end)%list.
Proof.
  induction p as [a|e|a k IH|url k IH|r k IH]; cbn; auto.
  destruct (segment k) as [acts o]; cbn in *. now rewrite IH.
Qed.

Lemma always_bind {A B : Type} P (p : prog A) (f : A -> prog B) :
  always P p -> (forall a, always P (f a)) -> always P (bind p f).
Proof.
  induction p as [a|e|a k IH|url k IH|r k IH]; cbn; intuition.
Qed.

Lemma always_try_catch {A : Type} P (p : prog A) handler :
  always P p -> (forall e, always P (handler e)) ->
  always P (try_catch p handler).
Proof.
  induction p as [a|e|a k IH|url k IH|r k IH]; cbn; intuition.
Qed.

Lemma always_resume {A : Type} P (s : settled A) : always P (resume s).
Proof. destruct s; exact I. Qed.

Lemma always_run {A : Type} P net (p : prog A) :
  always P p -> Forall P (run net p).
Proof.
  induction p as [a|e|a k IH|url k IH|r k IH]; cbn; auto.
  intros [Ha Hk]. auto.
Qed.

Lemma filter_none (P : action -> Prop) (f : action -> bool) l :
  (forall a, P a -> f a = false) -> Forall P l -> filter f l = [].
Proof.
  intros Hf Hl. induction Hl as [|a l Ha _ IH]; cbn; auto.
  now rewrite (Hf a Ha).
Qed.

Lemma apply_all_app l1 l2 st :
  apply_all (l1 ++ l2) st = apply_all l2 (apply_all l1 st).
Proof. apply fold_left_app. Qed.

(** ** The two stretches of [fetchNasaHistory] *)

#[local] Arguments discover_url : simpl never.
#[local] Arguments String.append : simpl never.

Lemma segment_fetchNasaHistory date :
  segment (fetchNasaHistory date) =
  ([setIsLoading true; setError None; setResultText None; setSources [];
    send_request (discover_url date)],
   Suspended (OnFetch (discover_url date) (fetch_continuation date))).
Proof. reflexivity. Qed.

Lemma handleSearch_nonempty date :
  date <> EmptyString -> handleSearch date = fetchNasaHistory date.
Proof. destruct date; [congruence | reflexivity]. Qed.

Lemma assoc_remove_key key (fields : list (string * jsval)) :
  assoc key (remove_key key fields) = None.
Proof.
  induction fields as [|[k v] rest IH]; cbn; auto.
  destruct (String.eqb key k) eqn:E; cbn; auto. now rewrite E.
Qed.

(** The actions of a search whose response is 2xx and whose body parses to
    an object without a truthy [apod]. *)
Lemma run_without_apod net date r fields :
  net (discover_url date) = inr r -> ok r = true ->
  body r = inr (JObj fields) ->
  match assoc "apod" fields with
  | Some v => truthy v = false
  | None => True
  end ->
  run net (fetchNasaHistory date) =
  [setIsLoading true; setError None; setResultText None; setSources [];
   send_request (discover_url date);
   setResultText (Some "No APOD data available for this date.");
   setIsLoading false].
Proof.
  intros Hnet Hok Hbody Hapod.
  unfold fetchNasaHistory; cbn. rewrite Hnet; cbn. rewrite Hok; cbn.
  rewrite Hbody; cbn. unfold read; cbn [get_prop].
  destruct (assoc "apod" fields) as [v|]; cbn -[truthy].
  - now rewrite Hapod.
  - reflexivity.
Qed.

(** C1. When the backend answers 2xx with a JSON object whose [apod] is an
    object with string fields [title], [explanation] and [url], a search
    leaves [resultText] equal to the title, an em-dash between spaces and
    the explanation, and [sources] equal to the one citation with that url
    and that title, or ["NASA APOD"] when the title is the empty string. *)
Theorem apod_sets_result_and_source :
  forall net date r fields apod t e u st,
    net (discover_url date) = inr r ->
    ok r = true ->
    body r = inr (JObj fields) ->
    assoc "apod" fields = Some (JObj apod) ->
    assoc "title" apod = Some (JStr t) ->
    assoc "explanation" apod = Some (JStr e) ->
    assoc "url" apod = Some (JStr u) ->
    let st' := apply_all (run net (fetchNasaHistory date)) st in
    resultText st' = Some (t ++ " — " ++ e) /\
    sources st' =
      [ {| uri := JStr u;
           title := JStr (if truthy_string t then t else "NASA APOD") |} ].
Proof.
  intros net date r fields apod t e u st Hnet Hok Hbody Hapod Ht He Hu.
  unfold fetchNasaHistory; cbn. rewrite Hnet; cbn. rewrite Hok; cbn.
  rewrite Hbody; cbn. unfold read; cbn [get_prop].
  rewrite Hapod; cbn. rewrite Ht, He, Hu; cbn.
  split; [reflexivity|].
  destruct t; reflexivity.
Qed.


(** C5. When the backend answers 2xx with a JSON object that has no
    [apod] key, a search leaves [resultText] equal to the fixed fallback
    string and [sources] empty. *)
Theorem missing_apod_gives_fallback :
  forall net date r fields st,
    net (discover_url date) = inr r ->
    ok r = true ->
    body r = inr (JObj fields) ->
    assoc "apod" fields = None ->
    let st' := apply_all (run net (fetchNasaHistory date)) st in
    resultText st' = Some "No APOD data available for this date." /\
    sources st' = [].
Proof.
  intros net date r fields st Hnet Hok Hbody Hapod st'. subst st'.
  rewrite (run_without_apod net date Hnet Hok Hbody).
  - split; reflexivity.
  - now rewrite Hapod.
Qed.

(** X7. The same holds for a body that is a JSON string, number, boolean
    or array: reading [apod] from it gives [undefined], so a 2xx answer
    with such a body ends with the fallback text, no sources and no
    error. *)
Lemma non_object_body_gives_fallback net date r data st :
  net (discover_url date) = inr r -> ok r = true ->
  body r = inr data ->
  match data with
  | JBool _ | JNum _ | JStr _ | JArr _ => True
  | _ => False
  end ->
  let st' := apply_all (run net (fetchNasaHistory date)) st in
  resultText st' = Some "No APOD data available for this date." /\
  sources st' = [] /\ error st' = None.
Proof.
  intros Hnet Hok Hbody Hdata.
  unfold fetchNasaHistory; cbn. rewrite Hnet; cbn. rewrite Hok; cbn.
  rewrite Hbody; cbn.
  destruct data; try contradiction; cbn; auto.
Qed.

(** X6. A body that is the JSON value [null] is not covered by either
    case: reading [data.apod] throws, and a 2xx answer with that body ends
    in the error state, showing the message of the [TypeError]. *)
Lemma null_body_sets_error net date r st :
  net (discover_url date) = inr r -> ok r = true ->
  body r = inr JNull ->
  let st' := apply_all (run net (fetchNasaHistory date)) st in
  resultText st' = None /\ sources st' = [] /\
  error st' =
    Some ("Failed to fetch NASA data: " ++ nullish_read_message true "apod").
Proof.
  intros Hnet Hok Hbody.
  unfold fetchNasaHistory; cbn. rewrite Hnet; cbn. rewrite Hok; cbn.
  rewrite Hbody; cbn. auto.
Qed.

(** C10. When the JSON object of a 2xx answer has an [apod] key with a
    falsy value, a search performs exactly the actions it performs on the
    same object without the key, and ends with the fallback string in
    [resultText] and no sources. *)
Theorem falsy_apod_as_absent :
  forall net net' date r r' fields v st,
    net (discover_url date) = inr r ->
    net' (discover_url date) = inr r' ->
    ok r = true ->
    ok r' = true ->
    body r = inr (JObj fields) ->
    body r' = inr (JObj (remove_key "apod" fields)) ->
    assoc "apod" fields = Some v ->
    truthy v = false ->
    run net (fetchNasaHistory date) = run net' (fetchNasaHistory date) /\
    let st' := apply_all (run net (fetchNasaHistory date)) st in
    resultText st' = Some "No APOD data available for this date." /\
    sources st' = [].
Proof.
  intros net net' date r r' fields v st Hnet Hnet' Hok Hok' Hbody Hbody'
    Hapod Hfalsy.
  rewrite (run_without_apod net date Hnet Hok Hbody)
    by now rewrite Hapod.
  rewrite (run_without_apod net' date Hnet' Hok' Hbody')
    by now rewrite assoc_remove_key.
  repeat split.
Qed.

(** C2. When the request fails (the fetch rejects, the status is not 2xx,
    or reading the body as JSON throws) a search leaves [error] equal to
    the fixed prefix followed by the failure detail, [resultText] null and
    [sources] empty; for a response with status 500 the error message
    contains ["500"]. *)
Theorem failure_sets_error_only :
  forall net date detail st,
    failure_detail (net (discover_url date)) = Some detail ->
    let st' := apply_all (run net (fetchNasaHistory date)) st in
    error st' = Some ("Failed to fetch NASA data: " ++ detail) /\
    resultText st' = None /\
    sources st' = [] /\
    (forall r, net (discover_url date) = inr r -> status r = 500%N ->
               contains "500" ("Failed to fetch NASA data: " ++ detail)).
Proof.
  intros net date detail st Hfail.
  unfold fetchNasaHistory; cbn.
  destruct (net (discover_url date)) as [err|r] eqn:Hnet; cbn in Hfail |- *.
  - injection Hfail as <-. repeat split; discriminate.
  - destruct (ok r) eqn:Hok; cbn in Hfail |- *.
    + destruct (body r) as [err|data] eqn:Hbody; [|discriminate].
      injection Hfail as <-. cbn. repeat split.
      intros r0 [= <-] Hstatus. unfold ok in Hok. rewrite Hstatus in Hok.
      discriminate.
    + injection Hfail as <-. repeat split.
      intros r0 [= <-] Hstatus. rewrite Hstatus.
      exists "Failed to fetch NASA data: Failed with status: ", EmptyString.
      reflexivity.
Qed.

(** ** The click handler on an empty date *)

Lemma segment_handleSearch_empty :
  segment (handleSearch EmptyString) =
  ([setError (Some "Please select a valid date.")], Returned).
Proof. reflexivity. Qed.

(** C4. When the handler runs while the selected date is empty, it parks
    no call and requests no URL, whatever the network would answer, and by
    the time it returns [error] is ["Please select a valid date."]. *)
Theorem empty_date_sets_validation_error :
  forall c,
    selectedDate (ui c) = EmptyString ->
    let c' := start (handleSearch (selectedDate (ui c))) c in
    pending c' = pending c /\
    (forall net,
        filter is_send_request
          (run net (handleSearch (selectedDate (ui c)))) = []) /\
    snd (segment (handleSearch (selectedDate (ui c)))) = Returned /\
    error (ui c') = Some "Please select a valid date.".
Proof.
  intros c Hdate. rewrite Hdate. unfold start.
  rewrite segment_handleSearch_empty. cbn. auto.
Qed.

(** C9. When the handler runs while the selected date is empty, its only
    action is the [setError] call: [resultText], [sources], [isLoading]
    and [selectedDate] are what they were before. *)
Theorem empty_date_changes_only_error :
  forall c,
    selectedDate (ui c) = EmptyString ->
    let c' := start (handleSearch (selectedDate (ui c))) c in
    fst (segment (handleSearch (selectedDate (ui c)))) =
      [setError (Some "Please select a valid date.")] /\
    resultText (ui c') = resultText (ui c) /\
    sources (ui c') = sources (ui c) /\
    isLoading (ui c') = isLoading (ui c) /\
    selectedDate (ui c') = selectedDate (ui c) /\
    pending c' = pending c.
Proof.
  intros c Hdate. rewrite Hdate. unfold start.
  rewrite segment_handleSearch_empty. cbn. rewrite Hdate. auto 10.
Qed.

(** Run on a state that still shows a result, the validation branch
    leaves both the result and the error set.  The button's [disabled]
    attribute is what keeps the component out of that state (see
    [click_needs_date_and_idle] below). *)
Lemma validation_error_keeps_result c :
  selectedDate (ui c) = EmptyString ->
  resultText (ui c) <> None ->
  let c' := start (handleSearch (selectedDate (ui c))) c in
  resultText (ui c') <> None /\ error (ui c') <> None.
Proof.
  intros Hdate Hres. rewrite Hdate. unfold start.
  rewrite segment_handleSearch_empty. cbn. split; [exact Hres|discriminate].
Qed.

(** ** The loading flag over a whole search *)

Ltac always_step :=
  match goal with
  | |- always _ (bind _ _) => apply always_bind; [|intros ?]
  | |- always _ (try_catch _ _) => apply always_try_catch; [|intros ?]
  | |- always _ (resume _) => apply always_resume
  | |- always _ (read _ _) => apply always_resume
  | |- always _ (if ?b then _ else _) => destruct b
  | |- always _ (call _) => split; [exact I|exact I]
  | |- always _ (Do _ _) => split; [exact I|]
  | |- always _ (AwaitFetch _ _) => cbn [always]; intros ?
  | |- always _ (AwaitJson _ _) => cbn [always]; intros ?
  | |- always _ (Ret _) => exact I
  | |- always _ (Throw _) => exact I
  end.

(** A search is: the four resets, the request, actions that report the
    outcome, and one final [setIsLoading(false)]. *)
Lemma run_fetchNasaHistory_shape net date :
  exists mid,
    run net (fetchNasaHistory date) =
    ([setIsLoading true; setError None; setResultText None; setSources [];
      send_request (discover_url date)]
       ++ mid ++ [setIsLoading false])%list /\
    Forall reports_outcome mid.
Proof.
  unfold fetchNasaHistory; cbn.
  match goal with
  | |- context [run net (bind ?tc ?k)] =>
      exists (run net tc); split;
      [rewrite (run_bind net tc k), (final_try_catch net) |]
  end.
  - match goal with
    | |- context [match final net ?p with _ => _ end] =>
        destruct (final net p) as [e|[]]
    end; reflexivity.
  - apply always_run. repeat always_step.
Qed.

Lemma final_fetchNasaHistory net date :
  final net (fetchNasaHistory date) = inr tt.
Proof.
  unfold fetchNasaHistory; cbn.
  rewrite final_bind, final_try_catch.
  match goal with
  | |- context [match final net ?p with _ => _ end] =>
      destruct (final net p) as [e|[]]
  end; reflexivity.
Qed.

(** C6. For a non-empty date, the handler's synchronous stretch sets
    [isLoading] to true and parks the call at its one request; whatever
    way the request settles, the call runs to its end, its last action is
    [setIsLoading(false)], that action happens exactly once in the whole
    search, one request is sent, and [isLoading] ends false. *)
Theorem search_sets_loading_then_clears_it_once :
  forall date net st,
    date <> EmptyString ->
    let p := handleSearch date in
    isLoading (apply_all (fst (segment p)) st) = true /\
    (exists k, snd (segment p) = Suspended (OnFetch (discover_url date) k)) /\
    filter is_send_request (run net p) = [send_request (discover_url date)] /\
    final net p = inr tt /\
    (exists before, run net p = (before ++ [setIsLoading false])%list) /\
    List.length (filter (is_setIsLoading false) (run net p)) = 1 /\
    isLoading (apply_all (run net p) st) = false.
Proof.
  intros date net st Hdate p. subst p.
  rewrite (handleSearch_nonempty Hdate), segment_fetchNasaHistory.
  destruct (run_fetchNasaHistory_shape net date) as [mid [Hrun Hmid]].
  rewrite Hrun, final_fetchNasaHistory.
  split; [reflexivity|]. split; [eexists; reflexivity|].
  rewrite !filter_app, !apply_all_app.
  rewrite (@filter_none reports_outcome is_send_request mid)
    by (auto; intros []; cbn; tauto).
  rewrite (@filter_none reports_outcome (is_setIsLoading false) mid)
    by (auto; intros []; cbn; tauto).
  repeat split.
  eexists (_ ++ mid)%list. now rewrite <- app_assoc.
Qed.

(** ** The parked continuations *)

Lemma fetch_continuation_rejected date err :
  segment (fetch_continuation date (inl err)) =
  ([console_error "Backend API Error:" err;
    setError (Some ("Failed to fetch NASA data: " ++ message err));
    setIsLoading false], Returned).
Proof. reflexivity. Qed.

Lemma fetch_continuation_not_ok date r :
  ok r = false ->
  segment (fetch_continuation date (inr r)) =
  (let err := Error "Error" ("Failed with status: " ++ decimal (status r)) in
   [console_error "Backend API Error:" err;
    setError (Some ("Failed to fetch NASA data: " ++ message err));
    setIsLoading false], Returned).
Proof.
  intros Hok. unfold fetch_continuation; cbn. now rewrite Hok.
Qed.

Lemma fetch_continuation_ok date r :
  ok r = true ->
  segment (fetch_continuation date (inr r)) =
  ([], Suspended (OnJson r (body_continuation date r))).
Proof.
  intros Hok. unfold body_continuation, fetch_continuation; cbn.
  now rewrite Hok.
Qed.

(** After the body read the call runs to its end without another await;
    from a state with neither result nor error it sets at most one of
    them, clears the loading flag and leaves the date alone. *)
Lemma body_continuation_finishes date r s st :
  ok r = true ->
  resultText st = None -> error st = None ->
  let seg := segment (body_continuation date r s) in
  let st' := apply_all (fst seg) st in
  snd seg = Returned /\
  isLoading st' = false /\ result_xor_error st' /\
  selectedDate st' = selectedDate st.
Proof.
  intros Hok Hres Herr.
  unfold body_continuation, fetch_continuation, result_xor_error; cbn.
  rewrite Hok; cbn.
  destruct s as [err|data]; cbn; [auto|].
  destruct data; cbn; auto.
  unfold read; cbn [get_prop].
  destruct (assoc "apod" fields) as [apod|]; cbn; [|auto].
  destruct apod as [| |b|n|str|elems|afields]; cbn; auto.
  - destruct b; cbn; auto.
  - destruct (number_is_zero n); cbn; auto.
  - destruct str; cbn; auto.
  - destruct (assoc "title" afields), (assoc "explanation" afields),
      (assoc "url" afields); cbn; auto.
Qed.

(** ** The lifecycle invariant *)

Lemma lifecycle_inv_initial today : lifecycle_inv (initial today).
Proof. cbn. unfold result_xor_error; cbn. auto. Qed.

Lemma single_pending c i t :
  lifecycle_inv c -> nth_error (pending c) i = Some t ->
  pending c = [t] /\ i = 0.
Proof.
  unfold lifecycle_inv. destruct (pending c) as [|t0 [|t1 rest]].
  - destruct i; discriminate.
  - destruct i as [|i]; cbn.
    + now intros _ [= ->].
    + destruct i; discriminate.
  - contradiction.
Qed.

Lemma lifecycle_inv_step e c c' :
  lifecycle_inv c -> step e c = Some c' -> lifecycle_inv c'.
Proof.
  intros Hinv Hstep. destruct e as [v| |i s|i]; cbn in Hstep.
  - (* the date changes: only [selectedDate] moves *)
    injection Hstep as <-. unfold start; cbn.
    unfold lifecycle_inv, result_xor_error in *; cbn.
    destruct (pending c) as [|t [|t1 rest]]; auto.
  - (* a click on the enabled button *)
    destruct (submit_disabled (ui c)) eqn:Hdis; [discriminate|].
    injection Hstep as <-.
    unfold submit_disabled in Hdis.
    apply orb_false_elim in Hdis as [Hload Hdate].
    apply negb_false_iff in Hdate.
    assert (Hidle : pending c = []).
    { unfold lifecycle_inv in Hinv.
      destruct (pending c) as [|t [|t1 rest]]; auto; [|contradiction].
      destruct Hinv as [Hl _]. congruence. }
    unfold handleSearch. rewrite Hdate.
    unfold start. rewrite segment_fetchNasaHistory, Hidle.
    unfold lifecycle_inv; cbn. eauto 10.
  - (* the fetch of the pending call settles *)
    destruct (nth_error (pending c) i) as [[url k|r k]|] eqn:Hnth;
      try discriminate.
    injection Hstep as <-.
    destruct (single_pending c i Hinv Hnth) as [Hpend ->].
    unfold lifecycle_inv in Hinv. rewrite Hpend in Hinv.
    destruct Hinv as (Hload & Hres & Herr & Hsrc & [[date Ht]|(date & r & _ & Ht)]);
      [|discriminate].
    injection Ht as -> ->.
    unfold continue. rewrite Hpend.
    destruct s as [err|r].
    + rewrite fetch_continuation_rejected.
      unfold lifecycle_inv, result_xor_error; cbn. auto.
    + destruct (ok r) eqn:Hok.
      * rewrite (fetch_continuation_ok date r Hok).
        unfold lifecycle_inv; cbn. eauto 10.
      * rewrite (fetch_continuation_not_ok date r Hok).
        unfold lifecycle_inv, result_xor_error; cbn. auto.
  - (* the body read of the pending call settles *)
    destruct (nth_error (pending c) i) as [[url k|r k]|] eqn:Hnth;
      try discriminate.
    injection Hstep as <-.
    destruct (single_pending c i Hinv Hnth) as [Hpend ->].
    unfold lifecycle_inv in Hinv. rewrite Hpend in Hinv.
    destruct Hinv as (Hload & Hres & Herr & Hsrc & [[date Ht]|(date & r0 & Hok & Ht)]);
      [discriminate|].
    injection Ht as -> ->.
    destruct (body_continuation_finishes date r0 (body r0) (ui c) Hok Hres Herr)
      as (Hret & Hload' & Hxor & _).
    unfold continue. rewrite Hpend.
    destruct (segment (body_continuation date r0 (body r0))) as [acts o].
    cbn in Hret, Hload', Hxor. subst o.
    unfold lifecycle_inv; cbn. auto.
Qed.

Lemma lifecycle_inv_steps es : forall c c',
  lifecycle_inv c -> steps es c = Some c' -> lifecycle_inv c'.
Proof.
  induction es as [|e es IH]; cbn; intros c c' Hinv Hsteps.
  - now injection Hsteps as <-.
  - destruct (step e c) as [c1|] eqn:Hstep; [|discriminate].
    eauto using lifecycle_inv_step.
Qed.

Lemma reachable_lifecycle_inv c : reachable c -> lifecycle_inv c.
Proof.
  intros (today & es & Hsteps).
  eauto using lifecycle_inv_steps, lifecycle_inv_initial.
Qed.

(** C3. In every reachable state at most one of [resultText] and [error]
    is non-null, and [isLoading] is true exactly while one call of
    [fetchNasaHistory] is parked at an await, that is from the dispatch of
    its request until the request has resolved or rejected. *)
Theorem reachable_result_xor_error_and_loading :
  forall c,
    reachable c ->
    ~ (resultText (ui c) <> None /\ error (ui c) <> None) /\
    (isLoading (ui c) = true <-> exists t, pending c = [t]) /\
    (isLoading (ui c) = false <-> pending c = []).
Proof.
  intros c Hreach. apply reachable_lifecycle_inv in Hreach.
  unfold lifecycle_inv, result_xor_error in Hreach.
  destruct (pending c) as [|t [|t1 rest]]; [| |contradiction].
  - destruct Hreach as [Hload Hxor]. rewrite Hload.
    repeat split; try tauto; try discriminate.
    intros [t Ht]; discriminate.
  - destruct Hreach as (Hload & Hres & Herr & _). rewrite Hload.
    repeat split; try tauto; try discriminate; eauto.
Qed.

(** The disabled attribute the JSX computes is the guard the event loop
    applies to clicks. *)
Lemma rendered_button_disabled st m :
  button_disabled (fst (AstroDate st m)) = Some (ABool (submit_disabled st)).
Proof.
  unfold AstroDate.
  destruct (useMemo_formattedResultDate (selectedDate st) m) as [d m'].
  reflexivity.
Qed.

(** The validation branch of [handleSearch] is not reachable through the
    button: a click is delivered only when the date is non-empty and no
    search is loading. *)
Lemma click_needs_date_and_idle c c' :
  step Click c = Some c' ->
  selectedDate (ui c) <> EmptyString /\ isLoading (ui c) = false /\
  c' = start (fetchNasaHistory (selectedDate (ui c))) c.
Proof.
  cbn. destruct (submit_disabled (ui c)) eqn:Hdis; [discriminate|].
  intros [= <-]. unfold submit_disabled in Hdis.
  apply orb_false_elim in Hdis as [Hload Hdate].
  apply negb_false_iff in Hdate.
  unfold handleSearch. rewrite Hdate.
  repeat split; auto. intros E. rewrite E in Hdate. discriminate.
Qed.

(** C7. In every reachable state, if [isLoading] is true or the selected
    date is empty then the rendered button is disabled and a click is not
    delivered; at most one call is in flight; and a click that is
    delivered finds no call in flight and leaves exactly one. *)
Theorem single_request_in_flight :
  forall c m,
    reachable c ->
    (isLoading (ui c) = true \/ selectedDate (ui c) = EmptyString ->
     button_disabled (fst (AstroDate (ui c) m)) = Some (ABool true) /\
     step Click c = None) /\
    List.length (pending c) <= 1 /\
    (forall c', step Click c = Some c' ->
                pending c = [] /\ List.length (pending c') = 1).
Proof.
  intros c m Hreach. apply reachable_lifecycle_inv in Hreach.
  split; [|split].
  - intros Hguard. rewrite rendered_button_disabled.
    assert (Hdis : submit_disabled (ui c) = true).
    { unfold submit_disabled. destruct Hguard as [-> | ->]; cbn; auto.
      apply orb_true_r. }
    cbn. rewrite Hdis. auto.
  - unfold lifecycle_inv in Hreach.
    destruct (pending c) as [|t [|t1 rest]]; cbn; auto. contradiction.
  - intros c' Hclick.
    destruct (click_needs_date_and_idle c Hclick) as (_ & Hload & ->).
    unfold lifecycle_inv in Hreach.
    destruct (pending c) as [|t [|t1 rest]] eqn:Hpend.
    + unfold start. rewrite segment_fetchNasaHistory, Hpend. auto.
    + destruct Hreach as [Hl _]. congruence.
    + contradiction.
Qed.

(** ** Rendering *)

Lemma memo_reachable_consistent m : memo_reachable m -> memo_consistent m.
Proof.
  induction 1 as [|st m _ IH]; cbn; [exact I|].
  unfold AstroDate, useMemo_formattedResultDate.
  destruct m as [[dep value]|]; cbn; auto.
  destruct (String.eqb dep (selectedDate st)); cbn; auto.
Qed.

Lemma AstroDate_consistent st m :
  memo_consistent m ->
  fst (AstroDate st m) = view st (formatResultDate (selectedDate st)).
Proof.
  unfold AstroDate, useMemo_formattedResultDate.
  destruct m as [[dep value]|]; cbn; auto.
  intros ->. destruct (String.eqb dep (selectedDate st)) eqn:E; cbn; auto.
  apply String.eqb_eq in E. now subst.
Qed.

(** Rendering again right after a render gives the same tree, whatever
    the memo cell held before. *)
Lemma AstroDate_twice st m :
  fst (AstroDate st (snd (AstroDate st m))) = fst (AstroDate st m).
Proof.
  unfold AstroDate, useMemo_formattedResultDate.
  destruct m as [[dep value]|]; cbn.
  - destruct (String.eqb dep (selectedDate st)) eqn:E; cbn.
    + now rewrite E.
    + now rewrite String.eqb_refl.
  - now rewrite String.eqb_refl.
Qed.

(** C8. The tree the component returns is a function of its five state
    cells: two renders of the same state give the same tree, whichever
    memo cells earlier renders have left. *)
Theorem render_depends_on_state_only :
  forall st m1 m2,
    memo_reachable m1 -> memo_reachable m2 ->
    fst (AstroDate st m1) = fst (AstroDate st m2).
Proof.
  intros st m1 m2 H1 H2.
  rewrite !AstroDate_consistent by now apply memo_reachable_consistent.
  reflexivity.
Qed.

(** ** A search through the event loop *)

(** The run of a search is what the event loop does with it: from an idle
    state whose button is enabled, a click followed by the settlements of
    the request leads to the state the run computes, with nothing left
    pending. *)
Lemma search_through_event_loop c net :
  pending c = [] -> submit_disabled (ui c) = false ->
  exists es c',
    steps (Click :: es) c = Some c' /\
    pending c' = [] /\
    ui c' = apply_all (run net (handleSearch (selectedDate (ui c)))) (ui c).
Proof.
  intros Hidle Hdis.
  assert (Hdate : truthy_string (selectedDate (ui c)) = true).
  { unfold submit_disabled in Hdis.
    apply orb_false_elim in Hdis as [_ Hd]. now apply negb_false_iff in Hd. }
  cbn [steps step]. rewrite Hdis. unfold handleSearch. rewrite Hdate.
  generalize (selectedDate (ui c)); intros date.
  unfold start. rewrite segment_fetchNasaHistory, Hidle.
  cbn [app]. rewrite run_segment, segment_fetchNasaHistory.
  cbn [fst snd]. rewrite apply_all_app.
  set (c1 := {| ui := _; pending := _ |}).
  destruct (net (discover_url date)) as [err|r] eqn:Hnet.
  - exists [FetchSettles 0 (inl err)]. eexists. cbn [steps step c1 pending nth_error].
    unfold continue. rewrite fetch_continuation_rejected.
    rewrite run_segment, fetch_continuation_rejected. cbn [fst snd].
    rewrite app_nil_r. cbn. auto.
  - destruct (ok r) eqn:Hok.
    + exists [FetchSettles 0 (inr r); BodySettles 0].
      assert (Hfetch : step (FetchSettles 0 (inr r)) c1 =
                       Some {| ui := ui c1;
                               pending := [OnJson r (body_continuation date r)] |}).
      { cbn [step c1 pending nth_error]. unfold continue.
        now rewrite (fetch_continuation_ok date r Hok). }
      cbn [steps]. rewrite Hfetch. cbn [step pending nth_error].
      rewrite run_segment, (fetch_continuation_ok date r Hok).
      cbn [fst snd app]. rewrite run_segment.
      destruct (body_continuation_finishes date r (body r) (ui c1) Hok
                  eq_refl eq_refl) as (Hret & _).
      unfold continue.
      destruct (segment (body_continuation date r (body r))) as [acts o].
      cbn in Hret. subst o. cbn [fst snd].
      eexists. cbn. rewrite !app_nil_r. auto.
    + exists [FetchSettles 0 (inr r)]. eexists.
      cbn [steps step c1 pending nth_error].
      unfold continue. rewrite (fetch_continuation_not_ok date r Hok).
      rewrite run_segment, (fetch_continuation_not_ok date r Hok).
      cbn [fst snd]. rewrite app_nil_r. cbn. auto.
Qed.

(** * Further properties of the component *)

(** ** The three ways a search can go *)

(** The case analysis of [fetchNasaHistory]: after the resets and the
    request its actions are the failure report, the fallback text, or the
    text and citation of a truthy [apod]. *)
Lemma run_fetchNasaHistory_cases :
  forall net date,
    (exists err,
        run net (fetchNasaHistory date) =
        (resets date ++
         [console_error "Backend API Error:" err;
          setError (Some ("Failed to fetch NASA data: " ++ message err)%string);
          setIsLoading false])%list) \/
    run net (fetchNasaHistory date) =
      (resets date ++
       [setResultText (Some "No APOD data available for this date.");
        setIsLoading false])%list \/
    (exists apod t e u,
        truthy apod = true /\
        get_prop apod "title" = inr t /\
        get_prop apod "explanation" = inr e /\
        get_prop apod "url" = inr u /\
        run net (fetchNasaHistory date) =
        (resets date ++
         [setResultText (Some (to_string t ++ " — " ++ to_string e)%string);
          setSources [ {| uri := u; title := js_or t (JStr "NASA APOD") |} ];
          setIsLoading false])%list).
Proof.
  intros net date. unfold fetchNasaHistory, resets; cbn.
  destruct (net (discover_url date)) as [err|r]; cbn;
    [left; exists err; reflexivity|].
  destruct (ok r); cbn; [|left; eexists (Error _ _); reflexivity].
  destruct (body r) as [err|data]; cbn; [left; exists err; reflexivity|].
  destruct data as [| |b|n|str|elems|fields]; cbn;
    try (left; eexists (Error _ _); reflexivity);
    try (right; left; reflexivity).
  unfold read; cbn [get_prop].
  destruct (assoc "apod" fields) as [apod|]; [|right; left; reflexivity].
  cbn -[truthy get_prop to_string js_or].
  destruct (truthy apod) eqn:Htruthy; [|right; left; reflexivity].
  right; right.
  destruct apod as [| |b|n|str|elems|afields]; try discriminate;
    cbn -[truthy to_string js_or].
  1-4: eexists _, JUndefined, JUndefined, JUndefined;
       repeat split; try exact Htruthy; reflexivity.
  cbn [get_prop].
  destruct (assoc "title" afields) as [t|] eqn:Et,
    (assoc "explanation" afields) as [e|] eqn:Ee,
    (assoc "url" afields) as [u|] eqn:Eu;
    cbn -[truthy to_string js_or];
    eexists (JObj afields), _, _, _; cbn [get_prop];
    rewrite ?Et, ?Ee, ?Eu; repeat split; reflexivity.
Qed.

(** X1. Whatever the network answers, a click on a non-empty date does
    one of three things after the resets and the request: it logs the
    failure, sets [error] and ends loading; or it sets the fallback text
    and ends loading; or it sets the text and the one citation built from
    a truthy [apod] and ends loading. *)
Theorem search_goes_one_of_three_ways :
  forall net date,
    date <> EmptyString ->
    (exists err,
        run net (handleSearch date) =
        (resets date ++
         [console_error "Backend API Error:" err;
          setError (Some ("Failed to fetch NASA data: " ++ message err)%string);
          setIsLoading false])%list) \/
    run net (handleSearch date) =
      (resets date ++
       [setResultText (Some "No APOD data available for this date.");
        setIsLoading false])%list \/
    (exists apod t e u,
        truthy apod = true /\
        get_prop apod "title" = inr t /\
        get_prop apod "explanation" = inr e /\
        get_prop apod "url" = inr u /\
        run net (handleSearch date) =
        (resets date ++
         [setResultText (Some (to_string t ++ " — " ++ to_string e)%string);
          setSources [ {| uri := u; title := js_or t (JStr "NASA APOD") |} ];
          setIsLoading false])%list).
Proof.
  intros net date Hdate. rewrite (handleSearch_nonempty Hdate).
  apply run_fetchNasaHistory_cases.
Qed.

(** X2. Every search ends with loading off, the date untouched, and
    exactly one of the two outcomes: a result with no error, or an error
    with no result and no sources. *)
Theorem search_ends_in_exactly_one_outcome :
  forall net date st,
    let st' := apply_all (run net (fetchNasaHistory date)) st in
    isLoading st' = false /\
    selectedDate st' = selectedDate st /\
    ((exists text, resultText st' = Some text /\ error st' = None) \/
     (exists msg, error st' = Some msg /\ resultText st' = None /\
                  sources st' = [])).
Proof.
  intros net date st.
  destruct (run_fetchNasaHistory_cases net date)
    as [[err Hrun] | [Hrun | (apod & t & e & u & _ & _ & _ & _ & Hrun)]];
    rewrite Hrun; cbn; eauto 10.
Qed.

(** X3. The state a search ends in depends on the state it started from
    only through the selected date: whatever result, sources, error or
    loading flag were there before is overwritten. *)
Theorem search_overwrites_previous_outcome :
  forall net date st1 st2,
    selectedDate st1 = selectedDate st2 ->
    apply_all (run net (fetchNasaHistory date)) st1 =
    apply_all (run net (fetchNasaHistory date)) st2.
Proof.
  intros net date st1 st2 Hdate.
  destruct (run_fetchNasaHistory_shape net date) as [mid [Hrun _]].
  rewrite Hrun, !apply_all_app. do 2 f_equal.
  cbn. now rewrite Hdate.
Qed.

(** X4. A search writes to the console exactly when it ends in the error
    state: then it logs once, under the label "Backend API Error:", the
    exception whose message the error cell shows; a search that ends with
    a result logs nothing. *)
Theorem search_logs_exactly_its_failure :
  forall net date st,
    let acts := run net (fetchNasaHistory date) in
    match error (apply_all acts st) with
    | Some msg =>
        exists err,
          filter is_console_error acts =
            [console_error "Backend API Error:" err] /\
          msg = "Failed to fetch NASA data: " ++ message err
    | None => filter is_console_error acts = []
    end.
Proof.
  intros net date st.
  destruct (run_fetchNasaHistory_cases net date)
    as [[err Hrun] | [Hrun | (apod & t & e & u & _ & _ & _ & _ & Hrun)]];
    cbv zeta; rewrite Hrun; cbn; eauto.
Qed.

(** ** Edge cases of the response *)

(** X5. When the status is not 2xx the body is never read: the call ends
    at the settlement of the fetch, and two responses with the same status
    give the same actions whatever their bodies are. *)
Theorem non_2xx_ignores_body :
  forall net net' date r r',
    net (discover_url date) = inr r ->
    net' (discover_url date) = inr r' ->
    ok r = false ->
    status r' = status r ->
    snd (segment (fetch_continuation date (inr r))) = Returned /\
    run net (fetchNasaHistory date) = run net' (fetchNasaHistory date).
Proof.
  intros net net' date r r' Hnet Hnet' Hok Hstatus.
  assert (Hok' : ok r' = false) by (unfold ok in *; now rewrite Hstatus).
  split.
  - now rewrite (fetch_continuation_not_ok date r Hok).
  - unfold fetchNasaHistory; cbn. rewrite Hnet, Hnet'; cbn.
    rewrite Hok, Hok'; cbn. now rewrite Hstatus.
Qed.

(** X9. When a truthy [apod] has none of the properties [title],
    [explanation] and [url] (an empty object, or a string, number, boolean
    or array), the search still takes the success branch: the result text
    is "undefined — undefined" and the one citation has an undefined uri
    and the title "NASA APOD". *)
Theorem apod_without_fields_prints_undefined :
  forall net date r fields apod st,
    net (discover_url date) = inr r ->
    ok r = true ->
    body r = inr (JObj fields) ->
    assoc "apod" fields = Some apod ->
    truthy apod = true ->
    get_prop apod "title" = inr JUndefined ->
    get_prop apod "explanation" = inr JUndefined ->
    get_prop apod "url" = inr JUndefined ->
    let st' := apply_all (run net (fetchNasaHistory date)) st in
    resultText st' = Some "undefined — undefined" /\
    sources st' = [ {| uri := JUndefined; title := JStr "NASA APOD" |} ] /\
    error st' = None.
Proof.
  intros net date r fields apod st Hnet Hok Hbody Hapod Htruthy Ht He Hu.
  unfold fetchNasaHistory; cbn. rewrite Hnet; cbn. rewrite Hok; cbn.
  rewrite Hbody; cbn. unfold read; cbn [get_prop].
  rewrite Hapod; cbn -[truthy get_prop]. rewrite Htruthy.
  rewrite Ht; cbn -[truthy get_prop].
  rewrite He; cbn -[truthy get_prop].
  rewrite Hu; cbn -[truthy get_prop].
  auto.
Qed.

(** ** What the cells can hold *)

Lemma append_nonempty a b : b <> EmptyString -> (a ++ b)%string <> EmptyString.
Proof.
  destruct a as [|c a]; unfold String.append; fold String.append; auto.
  discriminate.
Qed.

Lemma truthy_title_fallback t : truthy (js_or t (JStr "NASA APOD")) = true.
Proof. unfold js_or. destruct (truthy t) eqn:E; auto. Qed.

(** The actions a parked call still has to perform, once the tail of a
    whole run is known to be [acts]. *)
Lemma settle_actions_cases net date acts :
  run net (fetchNasaHistory date) = (resets date ++ acts)%list ->
  (exists err,
      acts = [console_error "Backend API Error:" err;
              setError (Some ("Failed to fetch NASA data: " ++ message err)%string);
              setIsLoading false]) \/
  acts = [setResultText (Some "No APOD data available for this date.");
          setIsLoading false] \/
  (exists t e u,
      acts = [setResultText (Some (to_string t ++ " — " ++ to_string e)%string);
              setSources [ {| uri := u; title := js_or t (JStr "NASA APOD") |} ];
              setIsLoading false]).
Proof.
  intros Hrun.
  destruct (run_fetchNasaHistory_cases net date)
    as [[err Hc] | [Hc | (apod & t & e & u & _ & _ & _ & _ & Hc)]];
    rewrite Hc in Hrun; apply app_inv_head in Hrun; subst acts; eauto 6.
Qed.

Lemma display_after_settle acts st :
  resultText st = None -> error st = None -> sources st = [] ->
  (exists err,
      acts = [console_error "Backend API Error:" err;
              setError (Some ("Failed to fetch NASA data: " ++ message err)%string);
              setIsLoading false]) \/
  acts = [setResultText (Some "No APOD data available for this date.");
          setIsLoading false] \/
  (exists t e u,
      acts = [setResultText (Some (to_string t ++ " — " ++ to_string e)%string);
              setSources [ {| uri := u; title := js_or t (JStr "NASA APOD") |} ];
              setIsLoading false]) ->
  display_inv (apply_all acts st).
Proof.
  intros Hres Herr Hsrc [[err ->] | [-> | (t & e & u & ->)]];
    unfold display_inv, fetch_error, cited; cbn -[truthy js_or];
    rewrite ?Hres, ?Herr, ?Hsrc.
  - repeat split; eauto. discriminate.
  - repeat split; discriminate.
  - repeat split; try discriminate.
    + intros [= Habs]. revert Habs. apply append_nonempty.
      intros Habs. cbv [String.append] in Habs. discriminate Habs.
    + apply truthy_title_fallback.
Qed.

(** The tail of a whole run is what the call parked at the body read
    performs when the read settles. *)
Lemma body_continuation_actions date r :
  ok r = true ->
  exists acts,
    segment (body_continuation date r (body r)) = (acts, Returned) /\
    run (fun _ => inr r) (fetchNasaHistory date) = (resets date ++ acts)%list.
Proof.
  intros Hok.
  destruct (body_continuation_finishes date r (body r)
              {| selectedDate := EmptyString; resultText := None;
                 sources := []; isLoading := true; error := None |}
              Hok eq_refl eq_refl) as (Hret & _).
  destruct (segment (body_continuation date r (body r))) as [acts o] eqn:Hseg.
  cbn in Hret. subst o. exists acts. split; [reflexivity|].
  rewrite run_segment, segment_fetchNasaHistory. cbn [fst snd].
  rewrite run_segment, (fetch_continuation_ok date r Hok). cbn [fst snd app].
  rewrite run_segment, Hseg. cbn [fst snd]. now rewrite app_nil_r.
Qed.

Lemma display_inv_step e c c' :
  lifecycle_inv c -> display_inv (ui c) -> step e c = Some c' ->
  display_inv (ui c').
Proof.
  intros Hinv Hdisp Hstep. destruct e as [v| |i s|i]; cbn in Hstep.
  - injection Hstep as <-. exact Hdisp.
  - destruct (click_needs_date_and_idle c Hstep) as (_ & _ & ->).
    unfold start. rewrite segment_fetchNasaHistory.
    unfold display_inv, fetch_error, cited; cbn. repeat split; discriminate.
  - destruct (nth_error (pending c) i) as [[url k|r k]|] eqn:Hnth;
      try discriminate.
    injection Hstep as <-.
    destruct (single_pending c i Hinv Hnth) as [Hpend ->].
    unfold lifecycle_inv in Hinv. rewrite Hpend in Hinv.
    destruct Hinv as (Hload & Hres & Herr & Hsrc & [[date Ht]|(date & r & _ & Ht)]);
      [|discriminate].
    injection Ht as -> ->.
    unfold continue.
    destruct s as [err|r].
    + rewrite fetch_continuation_rejected. cbn [ui].
      apply display_after_settle; eauto.
    + destruct (ok r) eqn:Hok.
      * rewrite (fetch_continuation_ok date r Hok). exact Hdisp.
      * rewrite (fetch_continuation_not_ok date r Hok). cbn [ui].
        apply display_after_settle; auto. left. eexists (Error _ _).
        reflexivity.
  - destruct (nth_error (pending c) i) as [[url k|r k]|] eqn:Hnth;
      try discriminate.
    injection Hstep as <-.
    destruct (single_pending c i Hinv Hnth) as [Hpend ->].
    unfold lifecycle_inv in Hinv. rewrite Hpend in Hinv.
    destruct Hinv as (Hload & Hres & Herr & Hsrc & [[date Ht]|(date & r0 & Hok & Ht)]);
      [discriminate|].
    injection Ht as -> ->.
    destruct (body_continuation_actions date r0 Hok) as (acts & Hseg & Hrun).
    unfold continue. rewrite Hseg. cbn [ui].
    apply display_after_settle; auto.
    eapply settle_actions_cases; eauto.
Qed.

Lemma invariants_steps es : forall c c',
  lifecycle_inv c -> display_inv (ui c) -> steps es c = Some c' ->
  display_inv (ui c').
Proof.
  induction es as [|e es IH]; cbn; intros c c' Hinv Hdisp Hsteps.
  - now injection Hsteps as <-.
  - destruct (step e c) as [c1|] eqn:Hstep; [|discriminate].
    eauto using lifecycle_inv_step, display_inv_step.
Qed.

Lemma reachable_display_inv c : reachable c -> display_inv (ui c).
Proof.
  intros (today & es & Hsteps).
  apply (invariants_steps es (initial today)); auto using lifecycle_inv_initial.
  unfold display_inv, fetch_error, cited; cbn. repeat split; discriminate.
Qed.

(** ** Reachable states *)

(** X10. A click that the button delivers finds a non-empty date and
    wipes the previous outcome at once: the state it leaves has no result,
    no sources, no error, loading on and the same date, and the one parked
    call waits for the request built from that date. *)
Theorem click_starts_from_a_clean_slate :
  forall c c',
    reachable c ->
    step Click c = Some c' ->
    selectedDate (ui c) <> EmptyString /\
    ui c' = {| selectedDate := selectedDate (ui c); resultText := None;
               sources := []; isLoading := true; error := None |} /\
    pending c' = [OnFetch (discover_url (selectedDate (ui c)))
                    (fetch_continuation (selectedDate (ui c)))].
Proof.
  intros c c' Hreach Hclick. apply reachable_lifecycle_inv in Hreach.
  destruct (click_needs_date_and_idle c Hclick) as (Hdate & Hload & ->).
  unfold lifecycle_inv in Hreach.
  destruct (pending c) as [|t [|t1 rest]] eqn:Hpend.
  - unfold start. rewrite segment_fetchNasaHistory, Hpend. cbn. auto.
  - destruct Hreach as [Hl _]. congruence.
  - contradiction.
Qed.

(** X11. In every reachable state the error cell is null or a message of
    the [catch] block of [fetchNasaHistory], the fixed prefix followed by
    a detail. The message of the validation branch of [handleSearch] is
    never shown: the button does not deliver a click on an empty date. *)
Theorem validation_message_never_shown :
  forall c,
    reachable c ->
    fetch_error (error (ui c)) /\
    error (ui c) <> Some "Please select a valid date." /\
    error (ui c) <> Some EmptyString.
Proof.
  intros c Hreach. apply reachable_display_inv in Hreach.
  destruct Hreach as (Herr & _ & _). split; [exact Herr|].
  unfold fetch_error in Herr.
  destruct (error (ui c)) as [msg|]; [|split; discriminate].
  destruct Herr as [detail ->].
  split; intros [= Habs]; cbv [String.append] in Habs; discriminate Habs.
Qed.

(** X12. In every reachable state the citation list has at most one
    entry; an entry is there only beside a result and without an error,
    and its title is truthy, so its rendered link shows the title and
    never falls back to the raw uri. *)
Theorem reachable_citation_shows_title :
  forall c,
    reachable c ->
    List.length (sources (ui c)) <= 1 /\
    (forall s index,
        In s (sources (ui c)) ->
        truthy (title s) = true /\
        source_item s index = citation_item (uri s) (title s) index /\
        resultText (ui c) <> None /\
        error (ui c) = None).
Proof.
  intros c Hreach. apply reachable_display_inv in Hreach.
  destruct Hreach as (_ & _ & Hcited). unfold cited in Hcited.
  destruct (sources (ui c)) as [|s0 [|s1 rest]]; [| |contradiction].
  - split; [auto|]. intros s index [].
  - split; [auto|]. intros s index [<- | []].
    destruct Hcited as (Htitle & Hres & Herr).
    repeat split; auto.
    unfold source_item, citation_item, js_or. now rewrite Htitle.
Qed.

Lemma and_string_shows s node :
  s <> EmptyString -> and_string (Some s) node = node.
Proof. destruct s; [congruence | reflexivity]. Qed.

(** Loading excludes both outcomes, and the outcomes exclude each
    other. *)
Lemma reachable_exclusive c :
  reachable c ->
  (isLoading (ui c) = true ->
   resultText (ui c) = None /\ error (ui c) = None) /\
  (resultText (ui c) = None \/ error (ui c) = None).
Proof.
  intros Hreach. apply reachable_lifecycle_inv in Hreach.
  unfold lifecycle_inv, result_xor_error in Hreach.
  destruct (pending c) as [|t [|t1 rest]]; [| |contradiction].
  - destruct Hreach as [Hload Hxor]. rewrite Hload. split; [discriminate|auto].
  - destruct Hreach as (_ & Hres & Herr & _). auto.
Qed.

(** X13. In every reachable state the results area shows the error panel
    exactly when there is an error, the loading panel exactly when a
    search is loading, and the result panel exactly when there is a
    result; and it never shows more than one of the three. *)
Theorem reachable_shows_at_most_one_panel :
  forall c m,
    reachable c ->
    exists error_panel loading_panel result_panel,
      results_area (fst (AstroDate (ui c) m)) =
        [error_panel; loading_panel; result_panel] /\
      (is_element error_panel = true <-> error (ui c) <> None) /\
      (is_element loading_panel = true <-> isLoading (ui c) = true) /\
      (is_element result_panel = true <-> resultText (ui c) <> None) /\
      List.length
        (filter is_element [error_panel; loading_panel; result_panel]) <= 1.
Proof.
  intros c m Hreach.
  destruct (reachable_exclusive Hreach) as [Hload Hxor].
  apply reachable_display_inv in Hreach.
  destruct Hreach as (Herr & Hres & _).
  unfold AstroDate.
  destruct (useMemo_formattedResultDate (selectedDate (ui c)) m) as [d m'].
  unfold view, results_area; cbn [fst children last].
  do 3 eexists. split; [reflexivity|].
  assert (Herr' : error (ui c) <> Some EmptyString).
  { unfold fetch_error in Herr. destruct (error (ui c)) as [msg|]; [|discriminate].
    destruct Herr as [detail ->]. intros [= Habs]. }
  clear Herr.
  destruct (error (ui c)) as [msg|]; destruct (resultText (ui c)) as [txt|];
    try (destruct Hxor; discriminate);
    try rewrite (@and_string_shows msg) by congruence;
    try rewrite (@and_string_shows txt) by congruence;
    destruct (isLoading (ui c));
    try (destruct Hload as [? ?]; [reflexivity | discriminate]);
    cbn; repeat split; intros; auto; congruence.
Qed.

(** X14. A loading state is never stuck: however the fetch settles, at
    most two settlement events (the fetch, then the body read) bring the
    component back to a state with loading off and nothing pending. *)
Theorem loading_always_settles :
  forall c s,
    reachable c ->
    isLoading (ui c) = true ->
    exists es c',
      List.length es <= 2 /\
      (forall e, In e es -> e = FetchSettles 0 s \/ e = BodySettles 0) /\
      steps es c = Some c' /\
      isLoading (ui c') = false /\
      pending c' = [].
Proof.
  intros c s Hreach Hloading. apply reachable_lifecycle_inv in Hreach.
  unfold lifecycle_inv in Hreach.
  destruct (pending c) as [|t [|t1 rest]] eqn:Hpend; [| |contradiction].
  { destruct Hreach as [Hl _]. congruence. }
  destruct Hreach as (_ & Hres & Herr & _ & [[date ->]|(date & r & Hok & ->)]).
  - destruct s as [err|r]; [|destruct (ok r) eqn:Hok].
    + exists [FetchSettles 0 (inl err)]. eexists.
      split; [cbn; lia|]. split; [intros e [<-|[]]; auto|].
      cbn [steps step]. rewrite Hpend. cbn [nth_error].
      unfold continue. rewrite fetch_continuation_rejected, Hpend.
      cbn. auto.
    + exists [FetchSettles 0 (inr r); BodySettles 0].
      destruct (body_continuation_finishes date r (body r) (ui c) Hok Hres Herr)
        as (Hret & Hload' & _).
      destruct (segment (body_continuation date r (body r))) as [acts o] eqn:Hseg.
      cbn in Hret, Hload'. subst o.
      eexists. split; [cbn; lia|].
      split; [intros e [<-|[<-|[]]]; auto|].
      assert (Hfetch : step (FetchSettles 0 (inr r)) c =
                       Some {| ui := ui c;
                               pending := [OnJson r (body_continuation date r)] |}).
      { cbn [step]. rewrite Hpend. cbn [nth_error]. unfold continue.
        now rewrite (fetch_continuation_ok date r Hok), Hpend. }
      cbn [steps]. rewrite Hfetch. cbn [step pending nth_error].
      unfold continue. rewrite Hseg. cbn. auto.
    + exists [FetchSettles 0 (inr r)]. eexists.
      split; [cbn; lia|]. split; [intros e [<-|[]]; auto|].
      cbn [steps step]. rewrite Hpend. cbn [nth_error].
      unfold continue. rewrite (fetch_continuation_not_ok date r Hok), Hpend.
      cbn. auto.
  - exists [BodySettles 0].
    destruct (body_continuation_finishes date r (body r) (ui c) Hok Hres Herr)
      as (Hret & Hload' & _).
    destruct (segment (body_continuation date r (body r))) as [acts o] eqn:Hseg.
    cbn in Hret, Hload'. subst o.
    eexists. split; [cbn; lia|]. split; [intros e [<-|[]]; auto|].
    cbn [steps step]. rewrite Hpend. cbn [nth_error].
    unfold continue. rewrite Hseg, Hpend. cbn. auto.
Qed.

Lemma step_change v c :
  step (Change v) c =
  Some {| ui := with_date v (ui c); pending := pending c |}.
Proof. reflexivity. Qed.

(** X15. Changing the date while a search is in flight does not touch
    the search: a settlement before the change and the same settlement
    after it lead to the same state, in which only the selected date
    differs from what the settlement alone gives. *)
Theorem date_change_commutes_with_settlement :
  forall c v e c1,
    reachable c ->
    match e with
    | FetchSettles _ _ | BodySettles _ => True
    | Change _ | Click => False
    end ->
    step e c = Some c1 ->
    exists c2,
      step (Change v) c = Some c2 /\
      step e c2 = step (Change v) c1 /\
      step (Change v) c1 =
        Some {| ui := with_date v (ui c1); pending := pending c1 |}.
Proof.
  intros c v e c1 Hreach He Hstep. apply reachable_lifecycle_inv in Hreach.
  exists {| ui := with_date v (ui c); pending := pending c |}.
  split; [apply step_change|]. split; [|apply step_change].
  rewrite step_change.
  destruct e as [v'| |i s|i]; try contradiction; cbn in Hstep |- *.
  - destruct (nth_error (pending c) i) as [[url k|r k]|] eqn:Hnth;
      try discriminate.
    injection Hstep as <-.
    destruct (single_pending c i Hreach Hnth) as [Hpend ->].
    unfold lifecycle_inv in Hreach. rewrite Hpend in Hreach.
    destruct Hreach as (_ & _ & _ & _ & [[date Ht]|(date & r & _ & Ht)]);
      [|discriminate].
    injection Ht as -> ->.
    unfold continue; cbn [ui pending].
    destruct s as [err|r]; [|destruct (ok r) eqn:Hok].
    + now rewrite fetch_continuation_rejected.
    + now rewrite (fetch_continuation_ok date r Hok).
    + now rewrite (fetch_continuation_not_ok date r Hok).
  - destruct (nth_error (pending c) i) as [[url k|r k]|] eqn:Hnth;
      try discriminate.
    injection Hstep as <-.
    destruct (single_pending c i Hreach Hnth) as [Hpend ->].
    unfold lifecycle_inv in Hreach. rewrite Hpend in Hreach.
    destruct Hreach as (_ & _ & _ & _ & [[date Ht]|(date & r0 & Hok & Ht)]);
      [discriminate|].
    injection Ht as -> ->.
    destruct (body_continuation_actions date r0 Hok) as (acts & Hseg & Hrun).
    unfold continue; cbn [ui pending]. rewrite Hseg.
    destruct (settle_actions_cases Hrun)
      as [[err ->] | [-> | (t & e & u & ->)]]; reflexivity.
Qed.

(** X16. The header of a result names the date that is in the input when
    the result is shown, not the date the result was requested for: if
    the date is changed to [v] while the search for the earlier date is in
    flight, the search ends as it would have, and the page is rendered
    with the label of [v]. *)
Theorem result_is_labelled_with_current_date :
  forall c net v,
    pending c = [] ->
    submit_disabled (ui c) = false ->
    exists es c',
      steps (Click :: Change v :: es) c = Some c' /\
      pending c' = [] /\
      ui c' = with_date v
                (apply_all (run net (handleSearch (selectedDate (ui c)))) (ui c)) /\
      (forall m, memo_reachable m ->
                 fst (AstroDate (ui c') m) = view (ui c') (formatResultDate v)).
Proof.
  intros c net v Hidle Hdis.
  assert (Hdate : truthy_string (selectedDate (ui c)) = true).
  { unfold submit_disabled in Hdis.
    apply orb_false_elim in Hdis as [_ Hd]. now apply negb_false_iff in Hd. }
  assert (Hrender : forall c', selectedDate (ui c') = v ->
            forall m, memo_reachable m ->
              fst (AstroDate (ui c') m) = view (ui c') (formatResultDate v)).
  { intros c' <- m Hm. apply AstroDate_consistent.
    now apply memo_reachable_consistent. }
  cbn [steps step]. rewrite Hdis. unfold handleSearch. rewrite Hdate.
  generalize (selectedDate (ui c)); intros date.
  unfold start. rewrite segment_fetchNasaHistory, Hidle.
  cbn [app segment call ui pending].
  rewrite run_segment, segment_fetchNasaHistory. cbn [fst snd].
  rewrite apply_all_app.
  set (c2 := {| ui := _; pending := _ |}).
  destruct (net (discover_url date)) as [err|r] eqn:Hnet;
    [|destruct (ok r) eqn:Hok].
  - exists [FetchSettles 0 (inl err)]. eexists.
    cbn [steps step c2 pending nth_error]. unfold continue.
    rewrite fetch_continuation_rejected.
    rewrite run_segment, fetch_continuation_rejected. cbn [fst snd].
    rewrite app_nil_r. split; [reflexivity|]. split; [reflexivity|].
    split; [reflexivity|]. apply Hrender. reflexivity.
  - exists [FetchSettles 0 (inr r); BodySettles 0].
    destruct (body_continuation_actions date r Hok) as (acts & Hseg & Hrun).
    assert (Hfetch : step (FetchSettles 0 (inr r)) c2 =
                     Some {| ui := ui c2;
                             pending := [OnJson r (body_continuation date r)] |}).
    { cbn [step c2 pending nth_error]. unfold continue.
      now rewrite (fetch_continuation_ok date r Hok). }
    cbn [steps]. rewrite Hfetch. cbn [step pending nth_error].
    rewrite run_segment, (fetch_continuation_ok date r Hok).
    cbn [fst snd app]. rewrite run_segment, Hseg. cbn [fst snd].
    unfold continue. rewrite Hseg. rewrite app_nil_r.
    eexists. split; [reflexivity|]. split; [reflexivity|].
    destruct (settle_actions_cases Hrun)
      as [[err ->] | [-> | (t & e & u & ->)]];
      (split; [reflexivity | apply Hrender; reflexivity]).
  - exists [FetchSettles 0 (inr r)]. eexists.
    cbn [steps step c2 pending nth_error]. unfold continue.
    rewrite (fetch_continuation_not_ok date r Hok).
    rewrite run_segment, (fetch_continuation_not_ok date r Hok). cbn [fst snd].
    rewrite app_nil_r. split; [reflexivity|]. split; [reflexivity|].
    split; [reflexivity|]. apply Hrender. reflexivity.
Qed.

(** ** The memoised label *)

(** X17. Memoising the formatted date does not change what is rendered:
    after any earlier renders, the tree is the JSX over the label freshly
    formatted from the current date, and the memo cell is left holding
    that date and that label. *)
Theorem memoised_render_is_fresh :
  forall st m,
    memo_reachable m ->
    fst (AstroDate st m) = view st (formatResultDate (selectedDate st)) /\
    snd (AstroDate st m) =
      Some (selectedDate st, formatResultDate (selectedDate st)).
Proof.
  intros st m Hm. apply memo_reachable_consistent in Hm.
  unfold AstroDate, useMemo_formattedResultDate.
  destruct m as [[dep value]|]; cbn in Hm |- *; auto.
  subst value. destruct (String.eqb dep (selectedDate st)) eqn:E; cbn; auto.
  apply String.eqb_eq in E. subst dep. auto.
Qed.

(** ** Mounting *)

Lemma split_on_first sep date rest :
  ~ In sep (list_ascii_of_string date) ->
  split_on sep (date ++ String sep rest) = date :: split_on sep rest.
Proof.
  induction date as [|c date IH]; intros Hnot.
  - change (EmptyString ++ String sep rest)%string with (String sep rest).
    cbn [split_on]. now rewrite Ascii.eqb_refl.
  - change (String c date ++ String sep rest)%string
      with (String c (date ++ String sep rest)).
    cbn [split_on].
    destruct (Ascii.eqb c sep) eqn:E.
    + apply Ascii.eqb_eq in E. subst c. exfalso. apply Hnot. now left.
    + rewrite IH; [reflexivity|]. intros Hin. apply Hnot. now right.
Qed.

(** X18. At mount the selected date is the part of the ISO timestamp
    before its first "T". When that part is non-empty the button is
    enabled; nothing is loading or pending and there is no result, source
    or error. *)
Theorem mount_selects_the_date_part :
  forall date time,
    ~ In "T"%char (list_ascii_of_string date) ->
    let c := mount (date ++ String "T" time) in
    selectedDate (ui c) = date /\
    (date <> EmptyString -> submit_disabled (ui c) = false) /\
    resultText (ui c) = None /\ sources (ui c) = [] /\ error (ui c) = None /\
    isLoading (ui c) = false /\ pending c = [].
Proof.
  intros date time Hnot. unfold mount, initial_selectedDate.
  rewrite split_on_first by exact Hnot. cbn.
  repeat split. intros Hdate. unfold submit_disabled; cbn.
  destruct date; [congruence|reflexivity].
Qed.

End Proofs.

(** * The properties on the example data *)

#[local] Existing Instance example_host.

Lemma apod_sets_result_and_source_witness :
  let st' :=
    apply_all (run (answering apod_response) (fetchNasaHistory "2024-01-15"))
      idle_state in
  resultText st' = Some "Pillars of Creation — Columns of gas and dust." /\
  sources st' =
    [ {| uri := JStr "https://apod.nasa.gov/apod/image/pillars.jpg";
         title := JStr "Pillars of Creation" |} ].
Proof.
  apply (@apod_sets_result_and_source example_host
           (answering apod_response) "2024-01-15" apod_response
           [("apod", JObj apod_fields)] apod_fields
           "Pillars of Creation" "Columns of gas and dust."
           "https://apod.nasa.gov/apod/image/pillars.jpg" idle_state);
    reflexivity.
Defined.

Lemma failure_sets_error_only_witness :
  let st' :=
    apply_all
      (run (answering server_error_response) (fetchNasaHistory "2024-01-15"))
      idle_state in
  error st' = Some "Failed to fetch NASA data: Failed with status: 500" /\
  resultText st' = None /\
  sources st' = [] /\
  contains "500" "Failed to fetch NASA data: Failed with status: 500".
Proof.
  destruct (@failure_sets_error_only example_host
              (answering server_error_response) "2024-01-15"
              "Failed with status: 500" idle_state eq_refl)
    as (Herr & Hres & Hsrc & H500).
  split; [exact Herr|]. split; [exact Hres|]. split; [exact Hsrc|].
  exact (H500 server_error_response eq_refl eq_refl).
Defined.

Lemma reachable_result_xor_error_and_loading_witness :
  reachable loading_system /\
  ~ (resultText (ui loading_system) <> None /\
     error (ui loading_system) <> None) /\
  (isLoading (ui loading_system) = true <->
   exists t, pending loading_system = [t]) /\
  (isLoading (ui loading_system) = false <-> pending loading_system = []).
Proof.
  assert (Hreach : reachable loading_system).
  { exists "2024-01-15", [Click]. reflexivity. }
  split; [exact Hreach|].
  exact (@reachable_result_xor_error_and_loading example_host
           loading_system Hreach).
Defined.

Lemma empty_date_sets_validation_error_witness :
  let c := cleared_date_system in
  let c' := start (handleSearch (selectedDate (ui c))) c in
  pending c' = pending c /\
  (forall net,
      filter is_send_request
        (run net (handleSearch (selectedDate (ui c)))) = []) /\
  snd (segment (handleSearch (selectedDate (ui c)))) = Returned /\
  error (ui c') = Some "Please select a valid date.".
Proof.
  exact (@empty_date_sets_validation_error example_host
           cleared_date_system eq_refl).
Defined.

Lemma missing_apod_gives_fallback_witness :
  let st' :=
    apply_all (run (answering empty_response) (fetchNasaHistory "2024-01-15"))
      idle_state in
  resultText st' = Some "No APOD data available for this date." /\
  sources st' = [].
Proof.
  apply (@missing_apod_gives_fallback example_host
           (answering empty_response) "2024-01-15" empty_response
           [("date", JStr "2024-01-15")] idle_state);
    reflexivity.
Defined.

Lemma search_sets_loading_then_clears_it_once_witness :
  let p := @handleSearch example_host "2024-01-15" in
  let net := answering apod_response in
  isLoading (apply_all (fst (segment p)) idle_state) = true /\
  (exists k,
      snd (segment p) = Suspended (OnFetch (discover_url "2024-01-15") k)) /\
  filter is_send_request (run net p) =
    [send_request (discover_url "2024-01-15")] /\
  final net p = inr tt /\
  (exists before, run net p = (before ++ [setIsLoading false])%list) /\
  List.length (filter (is_setIsLoading false) (run net p)) = 1 /\
  isLoading (apply_all (run net p) idle_state) = false.
Proof.
  apply (@search_sets_loading_then_clears_it_once example_host
           "2024-01-15" (answering apod_response) idle_state).
  discriminate.
Defined.

Lemma single_request_in_flight_witness :
  reachable loading_system /\
  (isLoading (ui loading_system) = true \/
   selectedDate (ui loading_system) = EmptyString ->
   button_disabled (fst (AstroDate (ui loading_system) None))
     = Some (ABool true) /\
   step Click loading_system = None) /\
  List.length (pending loading_system) <= 1 /\
  (forall c', step Click loading_system = Some c' ->
              pending loading_system = [] /\ List.length (pending c') = 1).
Proof.
  assert (Hreach : reachable loading_system).
  { exists "2024-01-15", [Click]. reflexivity. }
  split; [exact Hreach|].
  exact (@single_request_in_flight example_host loading_system None Hreach).
Defined.

Lemma render_depends_on_state_only_witness :
  fst (AstroDate idle_state None) =
  fst (AstroDate idle_state
         (snd (AstroDate (ui cleared_date_system) None))).
Proof.
  apply (@render_depends_on_state_only example_host idle_state).
  - apply memo_mount.
  - apply memo_render, memo_mount.
Defined.

Lemma empty_date_changes_only_error_witness :
  let c := cleared_date_system in
  let c' := start (handleSearch (selectedDate (ui c))) c in
  fst (segment (handleSearch (selectedDate (ui c)))) =
    [setError (Some "Please select a valid date.")] /\
  resultText (ui c') = resultText (ui c) /\
  sources (ui c') = sources (ui c) /\
  isLoading (ui c') = isLoading (ui c) /\
  selectedDate (ui c') = selectedDate (ui c) /\
  pending c' = pending c.
Proof.
  exact (@empty_date_changes_only_error example_host
           cleared_date_system eq_refl).
Defined.

Lemma falsy_apod_as_absent_witness :
  run (answering null_apod_response) (fetchNasaHistory "2024-01-15") =
  run (answering empty_response) (fetchNasaHistory "2024-01-15") /\
  let st' :=
    apply_all
      (run (answering null_apod_response) (fetchNasaHistory "2024-01-15"))
      idle_state in
  resultText st' = Some "No APOD data available for this date." /\
  sources st' = [].
Proof.
  apply (@falsy_apod_as_absent example_host
           (answering null_apod_response) (answering empty_response)
           "2024-01-15" null_apod_response empty_response
           [("date", JStr "2024-01-15"); ("apod", JNull)] JNull idle_state);
    reflexivity.
Defined.

(** * The further properties on the example data *)

Lemma search_goes_one_of_three_ways_witness :
  let net := answering apod_response in
  let date := "2024-01-15" in
  (exists err,
      run net (handleSearch date) =
      (resets date ++
       [console_error "Backend API Error:" err;
        setError (Some ("Failed to fetch NASA data: " ++ message err)%string);
        setIsLoading false])%list) \/
  run net (handleSearch date) =
    (resets date ++
     [setResultText (Some "No APOD data available for this date.");
      setIsLoading false])%list \/
  (exists apod t e u,
      truthy apod = true /\
      get_prop apod "title" = inr t /\
      get_prop apod "explanation" = inr e /\
      get_prop apod "url" = inr u /\
      run net (handleSearch date) =
      (resets date ++
       [setResultText (Some (to_string t ++ " — " ++ to_string e)%string);
        setSources [ {| uri := u; title := js_or t (JStr "NASA APOD") |} ];
        setIsLoading false])%list).
Proof.
  apply (@search_goes_one_of_three_ways example_host
           (answering apod_response) "2024-01-15").
  discriminate.
Defined.

Lemma search_overwrites_previous_outcome_witness :
  apply_all (run (answering empty_response) (fetchNasaHistory "2024-01-15"))
    (ui finished_system) =
  apply_all (run (answering empty_response) (fetchNasaHistory "2024-01-15"))
    idle_state.
Proof.
  apply (@search_overwrites_previous_outcome example_host
           (answering empty_response) "2024-01-15"
           (ui finished_system) idle_state).
  reflexivity.
Defined.

Lemma non_2xx_ignores_body_witness :
  snd (segment (fetch_continuation "2024-01-15" (inr server_error_response)))
    = Returned /\
  run (answering server_error_response) (fetchNasaHistory "2024-01-15") =
  run (answering server_error_with_apod) (fetchNasaHistory "2024-01-15").
Proof.
  apply (@non_2xx_ignores_body example_host
           (answering server_error_response)
           (answering server_error_with_apod) "2024-01-15"
           server_error_response server_error_with_apod);
    reflexivity.
Defined.

Lemma null_body_sets_error_witness :
  let st' :=
    apply_all
      (run (answering null_body_response) (fetchNasaHistory "2024-01-15"))
      idle_state in
  resultText st' = None /\ sources st' = [] /\
  error st' =
    Some "Failed to fetch NASA data: Cannot read properties of null (reading 'apod')".
Proof.
  apply (@null_body_sets_error example_host
           (answering null_body_response) "2024-01-15" null_body_response
           idle_state);
    reflexivity.
Defined.

Lemma non_object_body_gives_fallback_witness :
  let st' :=
    apply_all
      (run (answering array_body_response) (fetchNasaHistory "2024-01-15"))
      idle_state in
  resultText st' = Some "No APOD data available for this date." /\
  sources st' = [] /\ error st' = None.
Proof.
  apply (@non_object_body_gives_fallback example_host
           (answering array_body_response) "2024-01-15" array_body_response
           (JArr [JStr "2024-01-15"]) idle_state);
    first [reflexivity | exact I].
Defined.


Lemma apod_without_fields_prints_undefined_witness :
  let st' :=
    apply_all
      (run (answering bare_apod_response) (fetchNasaHistory "2024-01-15"))
      idle_state in
  resultText st' = Some "undefined — undefined" /\
  sources st' = [ {| uri := JUndefined; title := JStr "NASA APOD" |} ] /\
  error st' = None.
Proof.
  apply (@apod_without_fields_prints_undefined example_host
           (answering bare_apod_response) "2024-01-15" bare_apod_response
           [("apod", JBool true)] (JBool true) idle_state);
    reflexivity.
Defined.

Lemma initial_reachable : reachable (initial "2024-01-15").
Proof. exists "2024-01-15", []. reflexivity. Defined.

Lemma loading_system_reachable : reachable loading_system.
Proof. exists "2024-01-15", [Click]. reflexivity. Defined.

Lemma finished_system_reachable : reachable finished_system.
Proof.
  exists "2024-01-15",
    [Click; FetchSettles 0 (inr apod_response); BodySettles 0].
  reflexivity.
Defined.

Lemma failed_system_reachable : reachable failed_system.
Proof.
  exists "2024-01-15", [Click; FetchSettles 0 (inr server_error_response)].
  reflexivity.
Defined.

Lemma click_starts_from_a_clean_slate_witness :
  selectedDate (ui (initial "2024-01-15")) <> EmptyString /\
  ui loading_system =
    {| selectedDate := "2024-01-15"; resultText := None; sources := [];
       isLoading := true; error := None |} /\
  pending loading_system =
    [OnFetch (discover_url "2024-01-15") (fetch_continuation "2024-01-15")].
Proof.
  exact (@click_starts_from_a_clean_slate example_host
           (initial "2024-01-15") loading_system initial_reachable eq_refl).
Defined.

Lemma validation_message_never_shown_witness :
  fetch_error (error (ui failed_system)) /\
  error (ui failed_system) <> Some "Please select a valid date." /\
  error (ui failed_system) <> Some EmptyString.
Proof.
  exact (@validation_message_never_shown example_host failed_system
           failed_system_reachable).
Defined.

Lemma reachable_citation_shows_title_witness :
  List.length (sources (ui finished_system)) <= 1 /\
  (forall s index,
      In s (sources (ui finished_system)) ->
      truthy (title s) = true /\
      source_item s index = citation_item (uri s) (title s) index /\
      resultText (ui finished_system) <> None /\
      error (ui finished_system) = None).
Proof.
  exact (@reachable_citation_shows_title example_host finished_system
           finished_system_reachable).
Defined.

Lemma reachable_shows_at_most_one_panel_witness :
  exists error_panel loading_panel result_panel,
    results_area (fst (AstroDate (ui finished_system) None)) =
      [error_panel; loading_panel; result_panel] /\
    (is_element error_panel = true <-> error (ui finished_system) <> None) /\
    (is_element loading_panel = true <->
     isLoading (ui finished_system) = true) /\
    (is_element result_panel = true <->
     resultText (ui finished_system) <> None) /\
    List.length
      (filter is_element [error_panel; loading_panel; result_panel]) <= 1.
Proof.
  exact (@reachable_shows_at_most_one_panel example_host finished_system None
           finished_system_reachable).
Defined.

Lemma loading_always_settles_witness :
  exists es c',
    List.length es <= 2 /\
    (forall e, In e es ->
               e = FetchSettles 0 (inr apod_response) \/ e = BodySettles 0) /\
    steps es loading_system = Some c' /\
    isLoading (ui c') = false /\
    pending c' = [].
Proof.
  exact (@loading_always_settles example_host loading_system
           (inr apod_response) loading_system_reachable eq_refl).
Defined.

Lemma date_change_commutes_with_settlement_witness :
  exists c2,
    step (Change "2000-02-02") loading_system = Some c2 /\
    step (FetchSettles 0 (inr server_error_response)) c2 =
      step (Change "2000-02-02") failed_system /\
    step (Change "2000-02-02") failed_system =
      Some {| ui := with_date "2000-02-02" (ui failed_system);
              pending := pending failed_system |}.
Proof.
  exact (@date_change_commutes_with_settlement example_host loading_system
           "2000-02-02" (FetchSettles 0 (inr server_error_response))
           failed_system loading_system_reachable I eq_refl).
Defined.

Lemma result_is_labelled_with_current_date_witness :
  let c := initial "2024-01-15" in
  exists es c',
    steps (Click :: Change "2000-02-02" :: es) c = Some c' /\
    pending c' = [] /\
    ui c' = with_date "2000-02-02"
              (apply_all
                 (run (answering apod_response)
                    (handleSearch (selectedDate (ui c)))) (ui c)) /\
    (forall m, memo_reachable m ->
               fst (AstroDate (ui c') m) =
               view (ui c') (formatResultDate "2000-02-02")).
Proof.
  exact (@result_is_labelled_with_current_date example_host
           (initial "2024-01-15") (answering apod_response) "2000-02-02"
           eq_refl eq_refl).
Defined.

Lemma memoised_render_is_fresh_witness :
  let m := snd (AstroDate (ui cleared_date_system) None) in
  fst (AstroDate idle_state m) =
    view idle_state (formatResultDate (selectedDate idle_state)) /\
  snd (AstroDate idle_state m) =
    Some (selectedDate idle_state,
          formatResultDate (selectedDate idle_state)).
Proof.
  apply (@memoised_render_is_fresh example_host idle_state).
  apply memo_render, memo_mount.
Defined.

Lemma mount_selects_the_date_part_witness :
  let c := @mount example_host ("2024-01-15" ++ String "T" "10:20:30.000Z") in
  selectedDate (ui c) = "2024-01-15" /\
  ("2024-01-15" <> EmptyString -> submit_disabled (ui c) = false) /\
  resultText (ui c) = None /\ sources (ui c) = [] /\ error (ui c) = None /\
  isLoading (ui c) = false /\ pending c = [].
Proof.
  apply (@mount_selects_the_date_part example_host
           "2024-01-15" "10:20:30.000Z").
  cbn. intuition discriminate.
Defined.
